(** * push_notifications.go: validation, request building and token signing

    A shallow embedding of the Pusher Push Notifications server client
    ([src/push_notifications.go]) together with the properties its
    specification states about it.

    Conventions of the embedding:
    - a Go [string] is a sequence of bytes, here a [string] of 8-bit
      [ascii] characters, so [len(s)] is [String.length s];
    - a Go [map[string]interface{}] is a reference to a mutable object: maps
      live in a store ([maps]) and are passed around by reference
      ([mapref], where [None] is the nil map);
    - byte slices that carry JSON text are represented by the document they
      encode ([json.value]); a response body that is not JSON keeps the
      decoder's error;
    - a call runs in the [Go] monad: it reads the clock, answers of the
      network and the map store from a [world], records every request
      handed to the transport, and either returns, or panics. *)

From Stdlib Require Import ZArith String Ascii List DecimalString Lia.
From stdpp Require Import base option list strings gmap fin_maps sorting.

#[local] Open Scope Z_scope.
#[local] Set Warnings "-register-all".

(** ** Decimal rendering of integers, as [%d] prints them *)

Definition itoa (z : Z) : string := NilEmpty.string_of_int (Z.to_int z).

(** ** Package [errors] (github.com/pkg/errors)

    An error is a message, possibly wrapping a cause. [Error] is the text
    [err.Error()] returns. *)

Inductive goerror :=
  | ErrNew (msg : string)
  | ErrWrap (cause : goerror) (msg : string).

Module errors.

Definition New (message : string) : goerror := ErrNew message.

Definition Wrap (err : goerror) (message : string) : goerror :=
  ErrWrap err message.

Fixpoint Error (e : goerror) : string :=
  match e with
  | ErrNew msg => msg
  | ErrWrap cause msg => msg +:+ ": " +:+ Error cause
  end.

(** [true] for an error that was produced by [errors.Wrap]. *)
Definition isWrapped (e : goerror) : bool :=
  match e with
  | ErrNew _ => false
  | ErrWrap _ _ => true
  end.

End errors.

(** ** Package [fmt]

    [Sprintf] for the operands this program formats: strings and ints.
    The directives covered are the plain verbs [%s], [%d], [%v] and the
    escape [%%], with Go's diagnostics for a wrong operand type, a missing
    operand and surplus operands. A format that uses anything else after a
    [%] (flags, width, precision, another verb) is outside this fragment and
    yields [None]. *)

Module fmt.

Inductive operand :=
  | Str (s : string)
  | Int (z : Z).

Definition typeName (a : operand) : string :=
  match a with
  | Str _ => "string"
  | Int _ => "int"
  end.

(** The operand printed with [%v]. *)
Definition plain (a : operand) : string :=
  match a with
  | Str s => s
  | Int z => itoa z
  end.

Definition badVerb (verb : ascii) (a : operand) : string :=
  "%!" +:+ String verb ("(" +:+ typeName a +:+ "=" +:+ plain a +:+ ")").

Definition printArg (a : operand) (verb : ascii) : string :=
  match a, verb with
  | _, "v"%char => plain a
  | Str s, "s"%char => s
  | Int z, "d"%char => itoa z
  | _, _ => badVerb verb a
  end.

Definition missingArg (verb : ascii) : string :=
  "%!" +:+ String verb "(MISSING)".

Fixpoint extraArgs (first : bool) (args : list operand) : string :=
  match args with
  | [] => ""
  | a :: rest =>
      (if first then "" else ", ") +:+ typeName a +:+ "=" +:+ plain a
        +:+ extraArgs false rest
  end.

(** What [doPrintf] appends once the format is consumed. *)
Definition extra (args : list operand) : string :=
  match args with
  | [] => ""
  | _ => "%!(EXTRA " +:+ extraArgs true args +:+ ")"
  end.

Definition isPlainVerb (c : ascii) : bool :=
  (Ascii.eqb c "s" || Ascii.eqb c "d" || Ascii.eqb c "v")%bool.

Fixpoint doPrintf (format : string) (args : list operand) : option string :=
  match format with
  | EmptyString => Some (extra args)
  | String c rest =>
      if Ascii.eqb c "%" then
        match rest with
        | EmptyString => Some ("%!(NOVERB)" +:+ extra args)
        | String verb rest' =>
            if Ascii.eqb verb "%" then
              String "%"%char <$> doPrintf rest' args
            else if isPlainVerb verb then
              match args with
              | [] => (λ out, missingArg verb +:+ out) <$> doPrintf rest' []
              | a :: args' =>
                  (λ out, printArg a verb +:+ out) <$> doPrintf rest' args'
              end
            else None
        end
      else String c <$> doPrintf rest args
  end.

Definition Sprintf (format : string) (args : list operand) : option string :=
  doPrintf format args.

End fmt.

(** ** Bytes of a string *)

Definition code (c : ascii) : Z := Z.of_N (N_of_ascii c).

Definition between (lo hi : Z) (c : ascii) : bool :=
  ((lo <=? code c) && (code c <=? hi))%bool.

(** ** Package [unicode/utf8] *)

Module utf8.

Definition continuation : ascii → bool := between 128 191.

(** The range the second byte of a sequence must lie in, by leading byte
    (this is what excludes overlong forms, surrogates and code points above
    U+10FFFF). *)
Definition second (lead : ascii) : ascii → bool :=
  if code lead =? 224 then between 160 191
  else if code lead =? 237 then between 128 159
  else if code lead =? 240 then between 144 191
  else if code lead =? 244 then between 128 143
  else between 128 191.

Fixpoint ValidString (s : string) : bool :=
  match s with
  | EmptyString => true
  | String c0 r0 =>
      if code c0 <? 128 then ValidString r0
      else
        match r0 with
        | EmptyString => false
        | String c1 r1 =>
            if between 194 223 c0 then continuation c1 && ValidString r1
            else
              match r1 with
              | EmptyString => false
              | String c2 r2 =>
                  if between 224 239 c0 then
                    second c0 c1 && continuation c2 && ValidString r2
                  else
                    match r2 with
                    | EmptyString => false
                    | String c3 r3 =>
                        if between 240 244 c0 then
                          second c0 c1 && continuation c2 && continuation c3
                            && ValidString r3
                        else false
                    end
              end
        end
  end.

End utf8.

(** ** Package [regexp]

    The one expression this program compiles has the shape [^[class]+$]: a
    compiled expression is kept as its character class, a list of inclusive
    byte ranges. Without the [m] flag [$] matches at the end of the text
    only, and every byte above 127 decodes to a rune outside an ASCII class,
    so matching is: at least one byte, every byte in the class. *)

Module regexp.

Record Regexp := { class : list (ascii * ascii) }.

Definition inClass (re : Regexp) (c : ascii) : bool :=
  existsb (λ r, between (code r.1) (code r.2) c) (class re).

Fixpoint allInClass (re : Regexp) (s : string) : bool :=
  match s with
  | EmptyString => true
  | String c rest => inClass re c && allInClass re rest
  end.

Definition MatchString (re : Regexp) (s : string) : bool :=
  match s with
  | EmptyString => false
  | _ => allInClass re s
  end.

End regexp.

(** ** Go values held in an [interface{}]

    What a caller can put in a notification payload. [VNil] stands for every
    nil value (interface, slice, map, pointer): [json.Marshal] encodes them
    all as [null]. [VStrings] and [VSlice] are non-nil slices.
    [VUnsupported] is a value of a type [json.Marshal] rejects (a channel, a
    function, a complex number), with the name of its type. *)

Inductive govalue :=
  | VNil
  | VBool (b : bool)
  | VInt (z : Z)
  | VString (s : string)
  | VStrings (l : list string)
  | VSlice (l : list govalue)
  | VMap (m : gmap string govalue)
  | VUnsupported (ty : string).

(** ** Package [encoding/json] *)

Module json.

Inductive value :=
  | Null
  | Bool (b : bool)
  | Number (literal : string)
  | String (s : string)
  | Array (items : list value)
  | Object (members : list (string * value)).

(** Bytes read from the network: a JSON text, or bytes the decoder rejects
    with a syntax error. *)
Inductive bytes :=
  | Valid (doc : value)
  | Invalid (syntaxError : goerror).

Definition byKey {A} : relation (string * A) := λ p q, String.le p.1 q.1.

#[global] Instance byKey_dec {A} : RelDecision (@byKey A) :=
  λ p q, decide (String.le p.1 q.1).

(** Stops at the first member that failed to encode. *)
Fixpoint sequence (l : list (string * (value + goerror)))
  : list (string * value) + goerror :=
  match l with
  | [] => inl []
  | (k, inr e) :: _ => inr e
  | (k, inl j) :: rest =>
      match sequence rest with
      | inl js => inl ((k, j) :: js)
      | inr e => inr e
      end
  end.

(** Map members are written in increasing key order. *)
Fixpoint encode (v : govalue) : value + goerror :=
  match v with
  | VNil => inl Null
  | VBool b => inl (Bool b)
  | VInt z => inl (Number (itoa z))
  | VString s => inl (String s)
  | VStrings l => inl (Array (String <$> l))
  | VSlice l =>
      match
        (fix items (l : list govalue) : list value + goerror :=
           match l with
           | [] => inl []
           | x :: rest =>
               match encode x with
               | inr e => inr e
               | inl j =>
                   match items rest with
                   | inr e => inr e
                   | inl js => inl (j :: js)
                   end
               end
           end) l
      with
      | inl js => inl (Array js)
      | inr e => inr e
      end
  | VMap m =>
      match
        sequence
          (merge_sort byKey (map_fold (λ k x acc, (k, encode x) :: acc) [] m))
      with
      | inl members => inl (Object members)
      | inr e => inr e
      end
  | VUnsupported ty => inr (errors.New ("json: unsupported type: " +:+ ty))
  end.

Definition Marshal (v : govalue) : value + goerror := encode v.

(** *** Decoding into a struct of string fields *)

Definition upper (c : ascii) : ascii :=
  if between 97 122 c then ascii_of_N (N_of_ascii c - 32) else c.

(** Field names are matched up to case folding. Besides the ASCII letters,
    the only runes folding to an ASCII letter are U+017F (long s, bytes
    C5 BF) and U+212A (Kelvin sign, bytes E2 84 AA); all other bytes are
    kept, which decides equality with an ASCII field name. *)
Fixpoint foldName (s : string) : string :=
  match s with
  | EmptyString => EmptyString
  | String.String c0 r0 =>
      match r0 with
      | String.String c1 r1 =>
          if (code c0 =? 197) && (code c1 =? 191) then
            String.String "S" (foldName r1)
          else
            match r1 with
            | String.String c2 r2 =>
                if (code c0 =? 226) && (code c1 =? 132) && (code c2 =? 170)
                then String.String "K" (foldName r2)
                else String.String (upper c0) (foldName r0)
            | EmptyString => String.String (upper c0) (foldName r0)
            end
      | EmptyString => String.String (upper c0) EmptyString
      end
  end.

(** A Go struct whose fields are all strings, each with a [json] tag. *)
Class Struct (A : Type) := {
  structName : string;
  tags : list string;
  fromFields : gmap string string → A;
}.

(** An exact match of the key is preferred to a match up to folding. *)
Definition findField (tags : list string) (key : string) : option string :=
  match List.find (String.eqb key) tags with
  | Some tag => Some tag
  | None => List.find (λ tag, String.eqb (foldName tag) (foldName key)) tags
  end.

Definition kindOf (x : value) : string :=
  match x with
  | Null => "null"
  | Bool _ => "bool"
  | Number _ => "number"
  | String _ => "string"
  | Array _ => "array"
  | Object _ => "object"
  end.

(** Only the first error is kept; decoding goes on after it. *)
Definition saveError (saved : option goerror) (err : goerror) : option goerror :=
  match saved with
  | Some first => Some first
  | None => Some err
  end.

Fixpoint object (struct : string) (tags : list string)
    (members : list (string * value))
    (fields : gmap string string) (saved : option goerror)
  : gmap string string * option goerror :=
  match members with
  | [] => (fields, saved)
  | (key, x) :: rest =>
      match findField tags key with
      | None => object struct tags rest fields saved
      | Some tag =>
          match x with
          | String s => object struct tags rest (<[tag := s]> fields) saved
          | Null => object struct tags rest fields saved
          | _ =>
              object struct tags rest fields
                (saveError saved
                   (errors.New
                      ("json: cannot unmarshal " +:+ kindOf x
                         +:+ " into Go struct field " +:+ struct +:+ "."
                         +:+ tag +:+ " of type string")))
          end
      end
  end.

(** [json.Unmarshal(data, &A{})]: the struct decoded so far and the error. *)
Definition Unmarshal (A : Type) `{Struct A} (data : bytes) : A * option goerror :=
  match data with
  | Invalid syntaxError => (fromFields ∅, Some syntaxError)
  | Valid (Object members) =>
      let '(fields, saved) := object structName tags members ∅ None in
      (fromFields fields, saved)
  | Valid Null => (fromFields ∅, None)
  | Valid x =>
      (fromFields ∅,
       Some (errors.New
               ("json: cannot unmarshal " +:+ kindOf x
                  +:+ " into Go value of type " +:+ structName)))
  end.

End json.

(** ** Package [time]: instants and durations in nanoseconds

    An instant is the number of nanoseconds since the Unix epoch, without
    bound: Go keeps the seconds and the nanoseconds of an instant apart, so
    adding a day to a reading of the clock does not overflow. *)

Module time.

Definition Duration := Z.
Definition Time := Z.

Definition Second : Duration := 1000000000.
Definition Minute : Duration := 60 * Second.
Definition Hour : Duration := 60 * Minute.

Definition Add (t : Time) (d : Duration) : Time := t + d.

(** Seconds since the epoch, rounded down. *)
Definition Unix (t : Time) : Z := t / Second.

End time.

(** ** Package [jwt] (github.com/dgrijalva/jwt-go): building a token *)

Module jwt.

Inductive SigningMethod :=
  | SigningMethodHS256
  | SigningMethodHS384
  | SigningMethodHS512.

Definition Alg (m : SigningMethod) : string :=
  match m with
  | SigningMethodHS256 => "HS256"
  | SigningMethodHS384 => "HS384"
  | SigningMethodHS512 => "HS512"
  end.

Record Token := {
  Method : SigningMethod;
  Header : gmap string govalue;
  Claims : gmap string govalue;
}.

Definition NewWithClaims (method : SigningMethod) (claims : gmap string govalue)
  : Token :=
  {| Method := method;
     Header := <["typ" := VString "JWT"]> (<["alg" := VString (Alg method)]> ∅);
     Claims := claims |}.

End jwt.

(** ** What this file takes from outside

    [sdkVersion] is a constant of the package declared in another file.
    [urlParseError] is the error [url.Parse] reports for a string, if any.
    [SignedString] is the token's [SignedString] method applied to a key
    given as bytes: the compact serialization signed with the token's method. *)

Class Externals := {
  sdkVersion : string;
  urlParseError : string → option goerror;
  SignedString : jwt.Token → string → string + goerror;
}.

(** ** Package [net/http] *)

Module http.

Record Request := {
  Method : string;
  URL : string;
  Header : list (string * string);
  Body : json.value;
}.

Definition MethodPost : string := "POST".
Definition StatusOK : Z := 200.

Definition NewRequest `{Externals} (method url : string) (body : json.value)
  : Request + goerror :=
  match urlParseError url with
  | Some err => inr err
  | None => inl {| Method := method; URL := url; Header := []; Body := body |}
  end.

Definition Header_Add (req : Request) (key value : string) : Request :=
  {| Method := Method req; URL := URL req;
     Header := Header req ++ [(key, value)]; Body := Body req |}.

(** What reading the response body to its end gives. *)
Inductive body :=
  | ReadError (err : goerror)
  | ReadAll (data : json.bytes).

(** What the transport answers: a network error, or a status and a body. *)
Inductive answer :=
  | DoError (err : goerror)
  | DoResponse (StatusCode : Z) (Body : body).

Record Client := { Timeout : time.Duration }.

End http.

(** ** The world a call runs in, and the monad of calls *)

Definition mapref := option positive.

Record world := {
  maps : gmap positive (gmap string govalue);
  wire : list http.Request;
  clock : time.Time;
  network : http.Request → http.answer;
}.

(** [Unmodelled]: the call left the fragment this file describes (a format
    outside [fmt]'s fragment, or a reference to a map the store lacks). *)
Inductive outcome (A : Type) :=
  | Returned (a : A) (w : world)
  | Panicked (msg : string) (w : world)
  | Unmodelled.
Arguments Returned {A} a w.
Arguments Panicked {A} msg w.
Arguments Unmodelled {A}.

Definition Go (A : Type) : Type := world → outcome A.

#[global] Instance Go_ret : MRet Go := λ A a w, Returned a w.

#[global] Instance Go_bind : MBind Go := λ A B f c w,
  match c w with
  | Returned a w' => f a w'
  | Panicked msg w' => Panicked msg w'
  | Unmodelled => Unmodelled
  end.

Definition inFragment {A} (o : option A) : Go A := λ w,
  match o with
  | Some a => Returned a w
  | None => Unmodelled
  end.

(** [fmt.Sprintf] and [errors.Errorf] as calls. *)
Definition Sprintf (format : string) (args : list fmt.operand) : Go string :=
  inFragment (fmt.Sprintf format args).

Definition Errorf (format : string) (args : list fmt.operand) : Go goerror :=
  msg ← Sprintf format args; mret (errors.New msg).

(** [time.Now()] *)
Definition Now : Go time.Time := λ w, Returned (clock w) w.

(** [m[key] = v]; on a nil map the runtime panics. *)
Definition mapassign (m : mapref) (key : string) (v : govalue) : Go unit := λ w,
  match m with
  | None => Panicked "assignment to entry in nil map" w
  | Some l =>
      match maps w !! l with
      | Some content =>
          Returned tt
            {| maps := <[l := <[key := v]> content]> (maps w);
               wire := wire w; clock := clock w; network := network w |}
      | None => Unmodelled
      end
  end.

(** The value [json.Marshal] sees when handed the map. *)
Definition mapvalue (m : mapref) : Go govalue := λ w,
  match m with
  | None => Returned VNil w
  | Some l =>
      match maps w !! l with
      | Some content => Returned (VMap content) w
      | None => Unmodelled
      end
  end.

(** [client.Do(req)]: the request goes on the wire, the network answers. *)
Definition Do (client : http.Client) (req : http.Request) : Go http.answer := λ w,
  Returned (network w req)
    {| maps := maps w; wire := wire w ++ [req]; clock := clock w;
       network := network w |}.

Definition len (s : string) : Z := Z.of_nat (String.length s).

Definition lenSlice {A} (l : list A) : Z := Z.of_nat (length l).

(** * The client: [push_notifications.go] *)

Definition defaultRequestTimeout : time.Duration := time.Minute.
Definition defaultBaseEndpointFormat : string :=
  "https://%s.pushnotifications.pusher.com".
Definition maxUserIdLength : Z := 164.
Definition maxNumUserIds : Z := 1000.

(** [^[a-zA-Z0-9_\-=@,.;]+$] *)
Definition interestValidationRegex : regexp.Regexp :=
  {| regexp.class :=
       [("a", "z"); ("A", "Z"); ("0", "9"); ("_", "_"); ("-", "-");
        ("=", "="); ("@", "@"); (",", ","); (".", "."); (";", ";")]%char |}.

Record pushNotifications := {
  InstanceId : string;
  SecretKey : string;
  baseEndpoint : string;
  httpClient : http.Client;
}.

Definition New (instanceId secretKey : string)
  : Go (option pushNotifications * option goerror) :=
  if decide (instanceId = "") then
    mret (None, Some (errors.New "Instance Id cannot be an empty string"))
  else if decide (secretKey = "") then
    mret (None, Some (errors.New "Secret Key cannot be an empty string"))
  else
    endpoint ← Sprintf defaultBaseEndpointFormat [fmt.Str instanceId];
    mret
      (Some
         {| InstanceId := instanceId;
            SecretKey := secretKey;
            baseEndpoint := endpoint;
            httpClient := {| http.Timeout := defaultRequestTimeout |} |},
       None).

Record publishResponse := { PublishId : string }.

#[global] Instance publishResponse_struct : json.Struct publishResponse := {|
  json.structName := "pushnotifications.publishResponse";
  json.tags := ["publishId"];
  json.fromFields fields := {| PublishId := default "" (fields !! "publishId") |};
|}.

Record publishErrorResponse := {
  Error : string;
  Description : string;
}.

#[global] Instance publishErrorResponse_struct : json.Struct publishErrorResponse := {|
  json.structName := "pushnotifications.publishErrorResponse";
  json.tags := ["error"; "description"];
  json.fromFields fields :=
    {| Error := default "" (fields !! "error");
       Description := default "" (fields !! "description") |};
|}.

Section client.
Context `{Externals}.

Definition AuthenticateUser (pn : pushNotifications) (userId : string)
  : Go (string * option goerror) :=
  if len userId =? 0 then
    mret ("", Some (errors.New "User Id cannot be empty"))
  else if maxUserIdLength <? len userId then
    err ← Errorf
      "User Id ('%s') length too long (expected fewer than %d characters, got %d)"
      [fmt.Str userId; fmt.Int (maxUserIdLength + 1); fmt.Int (len userId)];
    mret ("", Some err)
  else
    now ← Now;
    let token :=
      jwt.NewWithClaims jwt.SigningMethodHS256
        (<["sub" := VString userId]>
           (<["exp" := VInt (time.Unix (time.Add now (24 * time.Hour)))]>
              (<["iss" :=
                   VString
                     ("https://" +:+ InstanceId pn
                        +:+ ".pushnotifications.pusher.com")]> ∅))) in
    match SignedString token (SecretKey pn) with
    | inr signingErrorErr =>
        mret
          ("",
           Some
             (errors.Wrap signingErrorErr
                "Failed to sign the JWT token used for User Authentication"))
    | inl tokenString => mret (tokenString, None)
    end.

Definition publishToAPI (pn : pushNotifications) (url : string)
    (bodyRequestBytes : json.value) : Go (string * option goerror) :=
  match http.NewRequest http.MethodPost url bodyRequestBytes with
  | inr err =>
      mret ("", Some (errors.Wrap err "Failed to prepare the publish request"))
  | inl httpReq =>
      let httpReq :=
        http.Header_Add httpReq "Authorization" ("Bearer " +:+ SecretKey pn) in
      let httpReq := http.Header_Add httpReq "Content-Type" "application/json" in
      let httpReq :=
        http.Header_Add httpReq "X-Pusher-Library"
          ("pusher-push-notifications-go " +:+ sdkVersion) in
      httpResp ← Do (httpClient pn) httpReq;
      match httpResp with
      | http.DoError err =>
          mret
            ("",
             Some
               (errors.Wrap err
                  "Failed to publish notifications due to a network error"))
      | http.DoResponse StatusCode (http.ReadError err) =>
          mret
            ("",
             Some
               (errors.Wrap err
                  "Failed to read publish notification response due to a network error"))
      | http.DoResponse StatusCode (http.ReadAll responseBytes) =>
          if StatusCode =? http.StatusOK then
            let '(pubResponse, err) :=
              json.Unmarshal publishResponse responseBytes in
            match err with
            | Some err =>
                mret
                  ("",
                   Some
                     (errors.Wrap err
                        "Failed to read publish notification response due to invalid JSON"))
            | None => mret (PublishId pubResponse, None)
            end
          else
            let '(pubErrorResponse, err) :=
              json.Unmarshal publishErrorResponse responseBytes in
            match err with
            | Some err =>
                mret
                  ("",
                   Some
                     (errors.Wrap err
                        "Failed to read publish notification response due to invalid JSON"))
            | None =>
                errorMessage ← Sprintf "%s: %s"
                  [fmt.Str (Error pubErrorResponse);
                   fmt.Str (Description pubErrorResponse)];
                mret
                  ("",
                   Some
                     (errors.Wrap (errors.New errorMessage)
                        "Failed to publish notification"))
            end
      end
  end.

(** Line 147: the URL [PublishToInterests] posts to. The base endpoint is
    part of the format string. *)
Definition interestsURL (pn : pushNotifications) : Go string :=
  Sprintf (baseEndpoint pn +:+ "/publish_api/v1/instances/%s/publishes")
    [fmt.Str (InstanceId pn)].

(** Line 181: the URL [PublishToUsers] posts to. The base endpoint is an
    operand. *)
Definition usersURL (pn : pushNotifications) : Go string :=
  Sprintf "%s/publish_api/v1/instances/%s/publishes/users"
    [fmt.Str (baseEndpoint pn); fmt.Str (InstanceId pn)].

(** The loop of [PublishToInterests] over the entries; [Some err] is an
    early return with that error. *)
Fixpoint rangeInterests (interests : list string) : Go (option goerror) :=
  match interests with
  | [] => mret None
  | interest :: rest =>
      if len interest =? 0 then
        mret (Some (errors.New "An empty interest name is not valid"))
      else if 164 <? len interest then
        err ← Errorf "Interest length is %d which is over 164 characters"
          [fmt.Int (len interest)];
        mret (Some err)
      else if negb (regexp.MatchString interestValidationRegex interest) then
        err ← Errorf
          ("Interest `%s` contains an forbidden character: "
             +:+ "Allowed characters are: ASCII upper/lower-case letters, "
             +:+ "numbers or one of _-=@,.:")
          [fmt.Str interest];
        mret (Some err)
      else rangeInterests rest
  end.

(** Lines 111-139 of [PublishToInterests]: the checks made before the
    payload is touched. *)
Definition validateInterests (interests : list string) : Go (option goerror) :=
  if lenSlice interests =? 0 then
    mret (Some (errors.New "No interests were supplied"))
  else if 10 <? lenSlice interests then
    err ← Errorf "Too many interests supplied (%d): API only supports up to 10"
      [fmt.Int (lenSlice interests)];
    mret (Some err)
  else rangeInterests interests.

Definition PublishToInterests (pn : pushNotifications) (interests : list string)
    (request : mapref) : Go (string * option goerror) :=
  invalid ← validateInterests interests;
  match invalid with
  | Some err => mret ("", Some err)
  | None =>
      mapassign request "interests" (VStrings interests);;
      payload ← mapvalue request;
      match json.Marshal payload with
      | inr err =>
          mret
            ("",
             Some
               (errors.Wrap err "Failed to marshal the publish request JSON body"))
      | inl bodyRequestBytes =>
          url ← interestsURL pn;
          publishToAPI pn url bodyRequestBytes
      end
  end.

Definition Publish (pn : pushNotifications) (interests : list string)
    (request : mapref) : Go (string * option goerror) :=
  PublishToInterests pn interests request.

(** The loop of [PublishToUsers]; [i] is the index of the first entry of
    [users]. *)
Fixpoint rangeUsers (i : Z) (users : list string) : Go (option goerror) :=
  match users with
  | [] => mret None
  | userId :: rest =>
      if decide (userId = "") then
        mret (Some (errors.New "Empty user ids are not valid"))
      else if maxUserIdLength <? len userId then
        msg ← Sprintf
          "User Id ('%s') length too long (expected fewer than %d characters, got %d)"
          [fmt.Str userId; fmt.Int maxUserIdLength; fmt.Int (len userId)];
        mret (Some (errors.New msg))
      else if negb (utf8.ValidString userId) then
        msg ← Sprintf "User Id at index %d is not valid utf8" [fmt.Int i];
        mret (Some (errors.New msg))
      else rangeUsers (i + 1) rest
  end.

(** Lines 152-173 of [PublishToUsers]. *)
Definition validateUsers (users : list string) : Go (option goerror) :=
  if lenSlice users =? 0 then
    mret (Some (errors.New "Must supply at least one user id"))
  else if maxNumUserIds <? lenSlice users then
    msg ← Sprintf "Too many user ids supplied. API supports up to %d, got %d"
      [fmt.Int maxNumUserIds; fmt.Int (lenSlice users)];
    mret (Some (errors.New msg))
  else rangeUsers 0 users.

Definition PublishToUsers (pn : pushNotifications) (users : list string)
    (request : mapref) : Go (string * option goerror) :=
  invalid ← validateUsers users;
  match invalid with
  | Some err => mret ("", Some err)
  | None =>
      mapassign request "users" (VStrings users);;
      payload ← mapvalue request;
      match json.Marshal payload with
      | inr err =>
          mret
            ("",
             Some
               (errors.Wrap err "Failed to marshal the publish request JSON body"))
      | inl bodyRequestBytes =>
          url ← usersURL pn;
          publishToAPI pn url bodyRequestBytes
      end
  end.

End client.

(** * Vocabulary of the specification *)

(** The two publishing entry points, with the key each one injects, its
    checks and its URL. *)
Inductive target := Interests | Users.

Definition injectedKey (t : target) : string :=
  match t with
  | Interests => "interests"
  | Users => "users"
  end.

Definition publish `{Externals} (t : target)
  : pushNotifications → list string → mapref → Go (string * option goerror) :=
  match t with
  | Interests => PublishToInterests
  | Users => PublishToUsers
  end.

Definition validate `{Externals} (t : target) : list string → Go (option goerror) :=
  match t with
  | Interests => validateInterests
  | Users => validateUsers
  end.

Definition targetURL `{Externals} (t : target) : pushNotifications → Go string :=
  match t with
  | Interests => interestsURL
  | Users => usersURL
  end.

(** The characters the specification allows in an interest:
    [A-Za-z0-9_\-=@,.;]. *)
Definition specInterestChar (c : ascii) : bool :=
  between 65 90 c || between 97 122 c || between 48 57 c
  || bool_decide (c ∈ ["_"; "-"; "="; "@"; ","; "."; ";"]%char).

Fixpoint allChars (p : ascii → bool) (s : string) : bool :=
  match s with
  | EmptyString => true
  | String c rest => p c && allChars p rest
  end.

(** An interest as the data model has it: 1 to 164 bytes, allowed
    characters only. *)
Definition specInterest (s : string) : bool :=
  (1 <=? len s) && (len s <=? 164) && allChars specInterestChar s.

(** An interest list the specification accepts: 1 to 10 interests. *)
Definition specInterests (l : list string) : bool :=
  (1 <=? lenSlice l) && (lenSlice l <=? 10) && forallb specInterest l.

(** A user id as the data model has it: 1 to 164 bytes of valid UTF-8. *)
Definition specUserId (s : string) : bool :=
  (1 <=? len s) && (len s <=? 164) && utf8.ValidString s.

(** The URLs of the wire protocol. *)
Definition specInterestsURL (instanceId : string) : string :=
  "https://" +:+ instanceId
    +:+ ".pushnotifications.pusher.com/publish_api/v1/instances/"
    +:+ instanceId +:+ "/publishes".

Definition specUsersURL (instanceId : string) : string :=
  specInterestsURL instanceId +:+ "/users".

(** A string without the byte [%]. *)
Definition percentFree (s : string) : bool :=
  allChars (λ c, negb (Ascii.eqb c "%")) s.

(** A JSON object that has exactly one member whose key selects the field
    [tag], and that member is the string [v]. *)
Definition onlyField (tag : string) (members : list (string * json.value))
    (v : string) : Prop :=
  ∃ before key after,
    members = before ++ (key, json.String v) :: after
    ∧ json.foldName key = json.foldName tag
    ∧ Forall (λ m, json.foldName m.1 ≠ json.foldName tag) (before ++ after).

(** The text of the forbidden-character error for an interest. *)
Definition forbiddenMessage (interest : string) : string :=
  "Interest `" +:+ interest
    +:+ "` contains an forbidden character: Allowed characters are: ASCII upper/lower-case letters, numbers or one of _-=@,.:".

(** The text of the length error of [PublishToUsers] for a user id. *)
Definition userTooLongMessage (userId : string) : string :=
  "User Id ('" +:+ userId +:+ "') length too long (expected fewer than 164 characters, got "
    +:+ itoa (len userId) +:+ ")".

(** ** Worlds and outcomes *)

(** The request [publishToAPI] hands to the transport. *)
Definition publishRequest `{Externals} (pn : pushNotifications) (url : string)
    (body : json.value) : http.Request :=
  {| http.Method := "POST";
     http.URL := url;
     http.Header :=
       [("Authorization", "Bearer " +:+ SecretKey pn);
        ("Content-Type", "application/json");
        ("X-Pusher-Library", "pusher-push-notifications-go " +:+ sdkVersion)];
     http.Body := body |}.

(** The world once [req] went on the wire. *)
Definition afterSending (w : world) (req : http.Request) : world :=
  {| maps := maps w; wire := wire w ++ [req]; clock := clock w;
     network := network w |}.

(** The world once the map at [l] holds [content]. *)
Definition afterStoring (w : world) (l : positive)
    (content : gmap string govalue) : world :=
  {| maps := <[l := content]> (maps w); wire := wire w; clock := clock w;
     network := network w |}.


Definition worldOf {A} (o : outcome A) : option world :=
  match o with
  | Returned _ w | Panicked _ w => Some w
  | Unmodelled => None
  end.

Definition requestsOf {A} (o : outcome A) : list http.Request :=
  from_option wire [] (worldOf o).


(** ** Sample surroundings, to run the client on concrete inputs *)

Definition sampleExternals : Externals :=
  {| sdkVersion := "0.2.0";
     urlParseError := λ _, None;
     SignedString := λ token key,
       inl ("signed(" +:+ jwt.Alg (jwt.Method token) +:+ "," +:+ key +:+ ")") |}.

Definition samplePn : pushNotifications :=
  {| InstanceId := "inst";
     SecretKey := "key";
     baseEndpoint := "https://inst.pushnotifications.pusher.com";
     httpClient := {| http.Timeout := defaultRequestTimeout |} |}.

(** A world whose store holds one payload map, at address 1, and whose
    network gives every request the same answer. *)
Definition sampleWorld (payload : gmap string govalue) (ans : http.answer)
  : world :=
  {| maps := {[ 1%positive := payload ]};
     wire := [];
     clock := 1700000000123456789;
     network := λ _, ans |}.

Definition ok200 (members : list (string * json.value)) : http.answer :=
  http.DoResponse 200 (http.ReadAll (json.Valid (json.Object members))).

Definition published : http.answer :=
  ok200 [("publishId", json.String "pub123")].

Definition networkDown : http.answer :=
  http.DoError (errors.New "dial tcp: i/o timeout").

(** An interest of 165 exclamation marks and a user id of 165 letters. *)
Definition bangs : string := string_of_list_ascii (repeat "!"%char 165).
Definition longUserId : string := string_of_list_ascii (repeat "a"%char 165).

(** ** What the checks of the two entry points accept *)

(** The user id lists that pass the checks of [PublishToUsers]: 1 to 1000
    entries, each of 1 to 164 bytes of valid UTF-8. *)
Definition validUserIds (l : list string) : bool :=
  (1 <=? lenSlice l) && (lenSlice l <=? 1000) && forallb specUserId l.

Definition accepted (t : target) (ids : list string) : bool :=
  match t with
  | Interests => specInterests ids
  | Users => validUserIds ids
  end.

(** The five contexts [publishToAPI] wraps a failure in. *)
Definition msgPrepare : string := "Failed to prepare the publish request".
Definition msgNetwork : string :=
  "Failed to publish notifications due to a network error".
Definition msgRead : string :=
  "Failed to read publish notification response due to a network error".
Definition msgInvalidJSON : string :=
  "Failed to read publish notification response due to invalid JSON".
Definition msgAPI : string := "Failed to publish notification".

(** An answer of the service that reports an error. *)
Definition apiError (status : Z) (error description : string) : http.answer :=
  http.DoResponse status
    (http.ReadAll
       (json.Valid
          (json.Object
             [("error", json.String error);
              ("description", json.String description)]))).

(** * Properties *)

(** ** Strings and the validation of interests *)

Lemma inClass_spec c :
  regexp.inClass interestValidationRegex c = specInterestChar c.
Proof. by destruct c as [[] [] [] [] [] [] [] []]. Qed.

Lemma allInClass_spec s :
  regexp.allInClass interestValidationRegex s = allChars specInterestChar s.
Proof. induction s as [|c s IH]; simpl; [done|]. by rewrite inClass_spec, IH. Qed.

Lemma len_String c s : len (String c s) = 1 + len s.
Proof. unfold len. simpl String.length. lia. Qed.

Lemma len_nonneg s : 0 <= len s.
Proof. unfold len. lia. Qed.

Lemma len_zero s : len s = 0 ↔ s = "".
Proof.
  destruct s; [done|]. rewrite len_String. pose proof (len_nonneg s).
  split; [lia | done].
Qed.

Lemma MatchString_spec s :
  regexp.MatchString interestValidationRegex s
  = negb (len s =? 0) && allChars specInterestChar s.
Proof.
  destruct s as [|c s]; [done|].
  unfold regexp.MatchString. rewrite allInClass_spec, len_String.
  pose proof (len_nonneg s).
  by destruct (Z.eqb_spec (1 + len s) 0); [lia|].
Qed.

(** Formats *)
Lemma Errorf_interest_length n :
  Errorf "Interest length is %d which is over 164 characters" [fmt.Int n]
  = mret (errors.New ("Interest length is " +:+ itoa n
                        +:+ " which is over 164 characters")).
Proof. reflexivity. Qed.

Lemma Errorf_interest_forbidden s :
  Errorf
    ("Interest `%s` contains an forbidden character: "
       +:+ "Allowed characters are: ASCII upper/lower-case letters, "
       +:+ "numbers or one of _-=@,.:")
    [fmt.Str s]
  = mret (errors.New (forbiddenMessage s)).
Proof. reflexivity. Qed.

Lemma Errorf_too_many_interests n :
  Errorf "Too many interests supplied (%d): API only supports up to 10" [fmt.Int n]
  = mret (errors.New ("Too many interests supplied (" +:+ itoa n
                        +:+ "): API only supports up to 10")).
Proof. reflexivity. Qed.

(** A loop that stops at an entry with an error: the error is the result,
    it is not [None], and it is not a wrapped error. *)
Ltac early_return :=
  eexists; split; [reflexivity|]; split; [done|]; by intros ? [= <-].

(** What the loop does with one entry, by the first check it fails. *)
Lemma rangeInterests_cons s l w :
  rangeInterests (s :: l) w =
    if len s =? 0 then
      Returned (Some (errors.New "An empty interest name is not valid")) w
    else if 164 <? len s then
      Returned (Some (errors.New ("Interest length is " +:+ itoa (len s)
                                    +:+ " which is over 164 characters"))) w
    else if allChars specInterestChar s then rangeInterests l w
    else Returned (Some (errors.New (forbiddenMessage s))) w.
Proof.
  cbn [rangeInterests]. rewrite Errorf_interest_length, Errorf_interest_forbidden.
  rewrite MatchString_spec.
  destruct (len s =? 0) eqn:?; [done|]. destruct (164 <? len s); [done|].
  simpl. by destruct (allChars specInterestChar s).
Qed.

Lemma specInterest_unfold s :
  specInterest s = negb (len s =? 0) && negb (164 <? len s) && allChars specInterestChar s.
Proof.
  unfold specInterest. pose proof (len_nonneg s). f_equal.
  destruct (Z.leb_spec 1 (len s)), (Z.eqb_spec (len s) 0),
    (Z.leb_spec (len s) 164), (Z.ltb_spec 164 (len s)); simpl; try done; lia.
Qed.

Lemma rangeInterests_pure l w :
  ∃ r, rangeInterests l w = Returned r w
       ∧ (r = None ↔ forallb specInterest l = true)
       ∧ (∀ e, r = Some e → errors.isWrapped e = false).
Proof.
  induction l as [|s l (r & Hr & Hnone & Hwrap)].
  - by exists None.
  - rewrite rangeInterests_cons. cbn [forallb]. rewrite specInterest_unfold.
    destruct (len s =? 0); [early_return|].
    destruct (164 <? len s); [early_return|].
    destruct (allChars specInterestChar s);
      [|early_return].
    exists r. by rewrite Hr.
Qed.

Lemma rangeInterests_skip pre rest w :
  forallb specInterest pre = true →
  rangeInterests (pre ++ rest) w = rangeInterests rest w.
Proof.
  induction pre as [|s pre IH]; [done|]. cbn [forallb app].
  rewrite specInterest_unfold, rangeInterests_cons.
  intros [[[H0 H164]%andb_prop Hc]%andb_prop Hpre]%andb_prop.
  apply negb_true_iff in H0, H164. rewrite H0, H164, Hc. auto.
Qed.

Section validateInterests_facts.
Context `{Externals}.

Lemma validateInterests_pure l w :
  ∃ r, validateInterests l w = Returned r w
       ∧ (r = None ↔ specInterests l = true)
       ∧ (∀ e, r = Some e → errors.isWrapped e = false).
Proof.
  unfold validateInterests, specInterests. rewrite Errorf_too_many_interests.
  assert (0 <= lenSlice l) by (unfold lenSlice; lia).
  destruct (Z.eqb_spec (lenSlice l) 0).
  { eexists. split; [done|]. split; [|by intros ? [= <-]].
    destruct (Z.leb_spec 1 (lenSlice l)); [lia|done]. }
  destruct (Z.ltb_spec 10 (lenSlice l)).
  { eexists. split; [done|]. split; [|by intros ? [= <-]].
    destruct (Z.leb_spec (lenSlice l) 10); [lia|]. by rewrite andb_false_r. }
  destruct (rangeInterests_pure l w) as (r & Hr & Hnone & Hwrap).
  exists r. split; [done|]. split; [|done].
  destruct (Z.leb_spec 1 (lenSlice l)); [|lia].
  destruct (Z.leb_spec (lenSlice l) 10); [|lia]. done.
Qed.
End validateInterests_facts.

(** ** Marshalling a payload map *)

Lemma sequence_inl l members :
  json.sequence l = inl members → l = prod_map id inl <$> members.
Proof.
  revert members. induction l as [|[k [j|e]] l IH]; intros members; simpl.
  - by intros [= <-].
  - destruct (json.sequence l) as [js|e]; [|done].
    intros [= <-]. simpl. f_equal. by apply IH.
  - done.
Qed.


Lemma encoded_members (m : gmap string govalue) :
  map_fold (λ k x acc, (k, json.encode x) :: acc) [] m
  = prod_map id json.encode <$> map_to_list m.
Proof.
  rewrite map_fold_foldr. induction (map_to_list m) as [|[k x] l IH]; [done|].
  simpl. by rewrite IH.
Qed.


(** ** The shared publishing routine *)

Lemma wire_grows {A} (l : list A) x : l ++ [x] ≠ l.
Proof.
  intros Heq. apply (f_equal length) in Heq. rewrite length_app in Heq.
  simpl in Heq. lia.
Qed.

Section publishToAPI_facts.
Context `{Externals}.

Lemma publishToAPI_blocked pn url body w e :
  urlParseError url = Some e →
  publishToAPI pn url body w
  = Returned ("", Some (errors.Wrap e "Failed to prepare the publish request")) w.
Proof. intros He. unfold publishToAPI, http.NewRequest. by rewrite He. Qed.

Lemma publishToAPI_sent pn url body w :
  urlParseError url = None →
  let req := publishRequest pn url body in
  ∃ id err,
    publishToAPI pn url body w = Returned (id, err) (afterSending w req)
    ∧ (∀ e, err = Some e → id = "" ∧ errors.isWrapped e = true)
    ∧ (err = None →
       ∃ data,
         network w req = http.DoResponse 200 (http.ReadAll data)
         ∧ json.Unmarshal publishResponse data = ({| PublishId := id |}, None))
    ∧ (∀ data p,
         network w req = http.DoResponse 200 (http.ReadAll data) →
         json.Unmarshal publishResponse data = (p, None) →
         id = PublishId p ∧ err = None).
Proof.
  intros Hurl req. unfold publishToAPI, http.NewRequest. rewrite Hurl.
  unfold mbind, Go_bind, Do.
  change (http.Header_Add _ _ _) with req.
  change {| maps := maps w; wire := wire w ++ [req]; clock := clock w;
            network := network w |} with (afterSending w req).
  destruct (network w req) as [e|status [e|data]] eqn:Hans.
  - eexists _, _. split; [done|]. split; [by intros ? [= <-]|]. split; [done|].
    done.
  - eexists _, _. split; [done|]. split; [by intros ? [= <-]|]. split; [done|].
    done.
  - destruct (Z.eqb_spec status http.StatusOK) as [->|Hne].
    + destruct (json.Unmarshal publishResponse data) as [[id] [e|]] eqn:Hdec.
      * eexists _, _. split; [done|]. split; [by intros ? [= <-]|].
        split; [done|]. intros data' p [= <-]. by rewrite Hdec.
      * exists id, None. split; [done|]. split; [done|].
        split; [by exists data|]. intros data' p [= <-]. rewrite Hdec.
        by intros [= <-].
    + destruct (json.Unmarshal publishErrorResponse data) as [p [e|]] eqn:Hdec.
      * eexists _, _. split; [done|]. split; [by intros ? [= <-]|].
        split; [done|]. intros data' p' [= ? _]. by destruct Hne.
      * eexists _, _. split; [reflexivity|]. split; [by intros ? [= <-]|].
        split; [done|]. intros data' p' [= ? _]. by destruct Hne.
Qed.
End publishToAPI_facts.

(** ** The validation of user ids *)

Lemma append_empty_r s : s +:+ "" = s.
Proof.
  induction s as [|c s IH]; [done|].
  change (String c (s +:+ "") = String c s). by f_equal.
Qed.

Lemma Sprintf_user_length u :
  Sprintf
    "User Id ('%s') length too long (expected fewer than %d characters, got %d)"
    [fmt.Str u; fmt.Int maxUserIdLength; fmt.Int (len u)]
  = mret (userTooLongMessage u).
Proof. reflexivity. Qed.

Lemma Sprintf_user_utf8 i :
  Sprintf "User Id at index %d is not valid utf8" [fmt.Int i]
  = mret ("User Id at index " +:+ itoa i +:+ " is not valid utf8").
Proof. reflexivity. Qed.

Lemma Sprintf_too_many_users n :
  Sprintf "Too many user ids supplied. API supports up to %d, got %d"
    [fmt.Int maxNumUserIds; fmt.Int n]
  = mret ("Too many user ids supplied. API supports up to 1000, got " +:+ itoa n).
Proof.
  rewrite <-(append_empty_r (itoa n)). reflexivity.
Qed.

Lemma rangeUsers_cons i u l w :
  rangeUsers i (u :: l) w =
    if decide (u = "") then
      Returned (Some (errors.New "Empty user ids are not valid")) w
    else if 164 <? len u then
      Returned (Some (errors.New (userTooLongMessage u))) w
    else if utf8.ValidString u then rangeUsers (i + 1) l w
    else
      Returned
        (Some (errors.New ("User Id at index " +:+ itoa i
                             +:+ " is not valid utf8"))) w.
Proof.
  cbn [rangeUsers]. rewrite Sprintf_user_length, Sprintf_user_utf8.
  destruct (decide (u = "")); [done|].
  change maxUserIdLength with 164. destruct (164 <? len u); [done|].
  by destruct (utf8.ValidString u).
Qed.

Lemma specUserId_unfold u :
  specUserId u
  = bool_decide (u ≠ "") && negb (164 <? len u) && utf8.ValidString u.
Proof.
  destruct u as [|c u]; [done|].
  unfold specUserId. rewrite (bool_decide_eq_true_2 _) by done.
  rewrite len_String. pose proof (len_nonneg u). f_equal.
  destruct (Z.leb_spec 1 (1 + len u)), (Z.leb_spec (1 + len u) 164),
    (Z.ltb_spec 164 (1 + len u)); simpl; try done; lia.
Qed.

Lemma rangeUsers_pure i l w :
  ∃ r, rangeUsers i l w = Returned r w
       ∧ (r = None ↔ forallb specUserId l = true)
       ∧ (∀ e, r = Some e → errors.isWrapped e = false).
Proof.
  revert i. induction l as [|u l IH]; intros i.
  - by exists None.
  - rewrite rangeUsers_cons. cbn [forallb]. rewrite specUserId_unfold.
    destruct (decide (u = "")) as [->|Hne];
      [early_return|].
    rewrite (bool_decide_eq_true_2 _ Hne).
    destruct (164 <? len u);
      [early_return|].
    destruct (utf8.ValidString u);
      [|early_return].
    apply IH.
Qed.


Section publish_facts.
Context `{Externals}.

Lemma validateUsers_pure l w :
  ∃ r, validateUsers l w = Returned r w
       ∧ (r = None → l ≠ [] ∧ forallb specUserId l = true)
       ∧ (∀ e, r = Some e → errors.isWrapped e = false).
Proof.
  unfold validateUsers. rewrite Sprintf_too_many_users.
  destruct (Z.eqb_spec (lenSlice l) 0) as [Hl|Hl].
  { eexists. split; [done|]. by split; [|intros ? [= <-]]. }
  destruct (maxNumUserIds <? lenSlice l).
  { eexists. split; [done|]. by split; [|intros ? [= <-]]. }
  destruct (rangeUsers_pure 0 l w) as (r & Hr & Hnone & Hwrap).
  exists r. split; [done|]. split; [|done].
  intros Hok. split; [by intros ->|by apply Hnone].
Qed.

(** The checks of either entry point return, leave the world as it is, and
    report failure with an error that is not wrapped. *)
Lemma validate_pure t ids w :
  ∃ r, validate t ids w = Returned r w
       ∧ (r = None → ids ≠ [])
       ∧ (∀ e, r = Some e → errors.isWrapped e = false).
Proof.
  destruct t; simpl.
  - destruct (validateInterests_pure ids w) as (r & Hr & Hnone & Hwrap).
    exists r. split; [done|]. split; [|done].
    intros Hv%Hnone ->. done.
  - destruct (validateUsers_pure ids w) as (r & Hr & Hnone & Hwrap).
    exists r. split; [done|]. split; [|done]. intros Hok. by apply Hnone.
Qed.

Lemma publish_invalid t pn ids request w e :
  validate t ids w = Returned (Some e) w →
  publish t pn ids request w = Returned ("", Some e) w.
Proof.
  destruct t; simpl; intros Hv;
    unfold PublishToInterests, PublishToUsers, mbind, Go_bind; by rewrite Hv.
Qed.

Lemma publish_nil_map t pn ids w :
  validate t ids w = Returned None w →
  publish t pn ids None w = Panicked "assignment to entry in nil map" w.
Proof.
  destruct t; simpl; intros Hv;
    unfold PublishToInterests, PublishToUsers, mbind, Go_bind; by rewrite Hv.
Qed.

(** Past the checks: the key is stored in the caller's map, the map is
    marshalled, and the body goes to [publishToAPI]. *)
Lemma publish_valid t pn ids l content w :
  validate t ids w = Returned None w →
  maps w !! l = Some content →
  let content' := <[injectedKey t := VStrings ids]> content in
  let w1 := afterStoring w l content' in
  publish t pn ids (Some l) w =
    match json.Marshal (VMap content') with
    | inr err =>
        Returned
          ("", Some (errors.Wrap err
                       "Failed to marshal the publish request JSON body")) w1
    | inl body => (url ← targetURL t pn; publishToAPI pn url body) w1
    end.
Proof.
  intros Hv Hl content' w1.
  destruct t; unfold publish, validate, targetURL, injectedKey in *;
    unfold PublishToInterests, PublishToUsers;
    unfold mbind at 1; unfold Go_bind at 1; rewrite Hv;
    unfold mbind at 1; unfold Go_bind at 1; unfold mapassign at 1; rewrite Hl;
    fold content'; change {| maps := _; wire := _; clock := _; network := _ |} with w1;
    unfold mbind at 1; unfold Go_bind at 1; unfold mapvalue at 1;
    (replace (maps w1 !! l) with (Some content')
       by (symmetry; apply lookup_insert_eq));
    by destruct (json.Marshal (VMap content')).
Qed.

Lemma targetURL_pure t pn :
  (∃ url, ∀ w, targetURL t pn w = Returned url w)
  ∨ (∀ w, targetURL t pn w = Unmodelled).
Proof.
  destruct t; simpl; unfold interestsURL, usersURL, Sprintf, inFragment;
    destruct (fmt.Sprintf _ _); eauto.
Qed.
End publish_facts.

Section publish_outcomes.
Context `{Externals}.

Lemma publish_dangling t pn ids l w :
  validate t ids w = Returned None w →
  maps w !! l = None →
  publish t pn ids (Some l) w = Unmodelled.
Proof.
  destruct t; unfold publish, validate; intros Hv Hl;
    unfold PublishToInterests, PublishToUsers, mbind, Go_bind;
    rewrite Hv; unfold mapassign; by rewrite Hl.
Qed.

(** Every way a call that passed the checks can return: either it stopped
    before the transport with a wrapped error, or exactly one request went
    on the wire and the answer decided the result. In both cases the
    caller's map holds the injected key. *)
Lemma publish_returned t pn ids request w id err w' :
  validate t ids w = Returned None w →
  publish t pn ids request w = Returned (id, err) w' →
  ∃ l content,
    request = Some l ∧ maps w !! l = Some content
    ∧ let content' := <[injectedKey t := VStrings ids]> content in
      let w1 := afterStoring w l content' in
      (w' = w1 ∧ id = "" ∧ ∃ e, err = Some e ∧ errors.isWrapped e = true)
      ∨ ∃ body url,
          json.Marshal (VMap content') = inl body
          ∧ targetURL t pn w1 = Returned url w1
          ∧ urlParseError url = None
          ∧ let req := publishRequest pn url body in
            w' = afterSending w1 req
            ∧ (∀ e, err = Some e → id = "" ∧ errors.isWrapped e = true)
            ∧ (err = None →
               ∃ data,
                 network w req = http.DoResponse 200 (http.ReadAll data)
                 ∧ json.Unmarshal publishResponse data
                   = ({| PublishId := id |}, None))
            ∧ (∀ data p,
                 network w req = http.DoResponse 200 (http.ReadAll data) →
                 json.Unmarshal publishResponse data = (p, None) →
                 id = PublishId p ∧ err = None).
Proof.
  intros Hv Hcall. destruct request as [l|].
  2: { by rewrite publish_nil_map in Hcall. }
  destruct (maps w !! l) as [content|] eqn:Hl.
  2: { by rewrite publish_dangling in Hcall. }
  exists l, content. split; [done|]. split; [done|]. intros content' w1.
  rewrite (publish_valid t pn ids l content w Hv Hl) in Hcall.
  fold content' in Hcall. fold w1 in Hcall.
  destruct (json.Marshal (VMap content')) as [body|e] eqn:Hbody.
  2: { injection Hcall as <- <- <-. left. eauto. }
  unfold mbind, Go_bind in Hcall.
  destruct (targetURL_pure t pn) as [[url Hurl]|Hurl]; rewrite Hurl in Hcall;
    [|done].
  destruct (urlParseError url) as [e|] eqn:Hparse.
  { rewrite (publishToAPI_blocked pn url body w1 e Hparse) in Hcall.
    injection Hcall as <- <- <-. left. eauto. }
  destruct (publishToAPI_sent pn url body w1 Hparse)
    as (id' & err' & Hsent & Herr & Hok & Hdec).
  rewrite Hsent in Hcall. injection Hcall as <- <- <-.
  right. exists body, url. by rewrite Hurl.
Qed.

(** A call whose checks fail returns their error and leaves the world as it
    is. *)
Lemma publish_rejected t pn ids request w e :
  validate t ids w = Returned (Some e) w →
  publish t pn ids request w = Returned ("", Some e) w
  ∧ errors.isWrapped e = false.
Proof.
  intros Hv. split; [by apply publish_invalid|].
  destruct (validate_pure t ids w) as (r & Hr & _ & Hwrap).
  rewrite Hv in Hr. injection Hr as <-. by apply Hwrap.
Qed.

End publish_outcomes.


Section publish_claims.
Context `{Externals}.



(** C3: every interest list with 1 to 10 entries, each entry of 1 to 164
    bytes taken from [A-Za-z0-9_\-=@,.;], passes the validation of
    [PublishToInterests]: the checks end without an error and without
    touching the world, and an error the call returns after that is a
    wrapped error of a later stage, never a validation error. *)
Theorem PublishToInterests_accepts_valid pn interests request w :
  specInterests interests = true →
  validateInterests interests w = Returned None w
  ∧ ∀ id err w',
      PublishToInterests pn interests request w = Returned (id, Some err) w' →
      errors.isWrapped err = true.
Proof.
  intros Hvalid.
  destruct (validateInterests_pure interests w) as (r & Hr & Hnone & _).
  assert (r = None) as -> by by apply Hnone.
  split; [done|]. intros id err w' Hcall.
  destruct (publish_returned Interests pn interests request w id (Some err) w'
              Hr Hcall) as (l & content & _ & _ & Hcases).
  destruct Hcases as [(_ & _ & e & [= <-] & Hwrap)|Hsent]; [done|].
  destruct Hsent as (body & url & _ & _ & _ & _ & Herr & _).
  by destruct (Herr err eq_refl).
Qed.

(** C4: for every interest list that fails validation, [PublishToInterests]
    returns an error at once, with the world as it was: the transport is not
    invoked and the payload is not touched. The error of the empty list is
    "No interests were supplied"; the error of a list of 11 or more entries
    is "Too many interests supplied (n): API only supports up to 10". *)
Theorem PublishToInterests_rejects_invalid pn interests request w :
  specInterests interests = false →
  ∃ err,
    PublishToInterests pn interests request w = Returned ("", Some err) w
    ∧ requestsOf (PublishToInterests pn interests request w) = wire w
    ∧ errors.isWrapped err = false
    ∧ (interests = [] → err = errors.New "No interests were supplied")
    ∧ (10 < lenSlice interests →
       err = errors.New
               ("Too many interests supplied (" +:+ itoa (lenSlice interests)
                  +:+ "): API only supports up to 10")).
Proof.
  intros Hinvalid.
  destruct (validateInterests_pure interests w) as ([e|] & Hr & Hnone & _).
  2: { rewrite (proj1 Hnone eq_refl) in Hinvalid. done. }
  destruct (publish_rejected Interests pn interests request w e Hr)
    as [Hrej Hwrap].
  simpl in Hrej. exists e. split; [done|]. split; [by rewrite Hrej|].
  split; [done|]. split.
  - intros ->. by injection Hr as <-.
  - intros Hlong. unfold validateInterests in Hr.
    rewrite Errorf_too_many_interests in Hr.
    destruct (Z.eqb_spec (lenSlice interests) 0); [lia|].
    destruct (Z.ltb_spec 10 (lenSlice interests)); [|lia].
    by injection Hr as <-.
Qed.

(** C10 (amended): an interest of 1 to 164 bytes that contains a character
    outside [A-Za-z0-9_\-=@,.;] makes the validation of a list of at most 10
    interests fail, when the interests before it are valid, with the
    forbidden-character error; the message quotes the whole offending
    interest. Nothing is sent and the payload is not touched. *)
Theorem PublishToInterests_forbidden_character pn before interest after request w :
  lenSlice (before ++ interest :: after) <= 10 →
  forallb specInterest before = true →
  1 <= len interest <= 164 →
  allChars specInterestChar interest = false →
  PublishToInterests pn (before ++ interest :: after) request w
  = Returned
      ("",
       Some
         (errors.New
            ("Interest `" +:+ interest
               +:+ "` contains an forbidden character: Allowed characters are: ASCII upper/lower-case letters, numbers or one of _-=@,.:")))
      w.
Proof.
  intros Hcount Hbefore [H1 H164] Hchar.
  apply (publish_invalid Interests). unfold validate, validateInterests.
  assert (0 < lenSlice (before ++ interest :: after)).
  { unfold lenSlice. rewrite length_app. simpl. lia. }
  destruct (Z.eqb_spec (lenSlice (before ++ interest :: after)) 0); [lia|].
  destruct (Z.ltb_spec 10 (lenSlice (before ++ interest :: after))); [lia|].
  rewrite rangeInterests_skip, rangeInterests_cons by done. rewrite Hchar.
  destruct (Z.eqb_spec (len interest) 0); [lia|].
  by destruct (Z.ltb_spec 164 (len interest)); [lia|].
Qed.

End publish_claims.

Lemma Unix_after_a_day now :
  time.Unix (time.Add now (24 * time.Hour)) = time.Unix now + 24 * 60 * 60.
Proof.
  unfold time.Unix, time.Add, time.Hour, time.Minute.
  replace (24 * (60 * (60 * time.Second))) with (24 * 60 * 60 * time.Second)
    by lia.
  by rewrite Z.div_add.
Qed.

Lemma Errorf_user_length u :
  Errorf
    "User Id ('%s') length too long (expected fewer than %d characters, got %d)"
    [fmt.Str u; fmt.Int (maxUserIdLength + 1); fmt.Int (len u)]
  = mret
      (errors.New
         ("User Id ('" +:+ u +:+ "') length too long (expected fewer than "
            +:+ itoa (maxUserIdLength + 1) +:+ " characters, got "
            +:+ itoa (len u) +:+ ")")).
Proof. reflexivity. Qed.

Section user_id_claims.
Context `{Externals}.

(** C5: for every user id of 1 to 164 bytes, [AuthenticateUser] builds the
    claim set that has exactly the claims [sub], the user id, [exp], the
    Unix time of the clock plus 24 hours, and [iss],
    "https://{instanceId}.pushnotifications.pusher.com", and returns what
    signing a token over these claims with method HS256 (HMAC-SHA256) and
    the secret key of the instance gives: the signed token, or the signing
    error, wrapped. *)
Theorem AuthenticateUser_signs_claims pn userId w :
  1 <= len userId <= 164 →
  ∃ claims : gmap string govalue,
    claims !! "sub" = Some (VString userId)
    ∧ claims !! "exp" = Some (VInt (time.Unix (clock w) + 24 * 60 * 60))
    ∧ claims !! "iss"
      = Some (VString ("https://" +:+ InstanceId pn
                         +:+ ".pushnotifications.pusher.com"))
    ∧ (∀ k, is_Some (claims !! k) → k ∈ ["sub"; "exp"; "iss"])
    ∧ AuthenticateUser pn userId w
      = Returned
          match
            SignedString
              {| jwt.Method := jwt.SigningMethodHS256;
                 jwt.Header :=
                   <["typ" := VString "JWT"]> (<["alg" := VString "HS256"]> ∅);
                 jwt.Claims := claims |}
              (SecretKey pn)
          with
          | inl tokenString => (tokenString, None)
          | inr signingError =>
              ("",
               Some
                 (errors.Wrap signingError
                    "Failed to sign the JWT token used for User Authentication"))
          end
          w.
Proof.
  intros [H1 H164].
  exists
    (<["sub" := VString userId]>
       (<["exp" := VInt (time.Unix (clock w) + 24 * 60 * 60)]>
          (<["iss" :=
               VString
                 ("https://" +:+ InstanceId pn
                    +:+ ".pushnotifications.pusher.com")]> ∅))).
  split; [|split; [|split; [|split]]]; last first.
  - unfold AuthenticateUser.
    destruct (Z.eqb_spec (len userId) 0); [lia|].
    change maxUserIdLength with 164.
    destruct (Z.ltb_spec 164 (len userId)); [lia|].
    unfold mbind, Go_bind, Now, jwt.NewWithClaims, jwt.Alg.
    rewrite Unix_after_a_day.
    by destruct (SignedString _ _).
  - intros k [x Hk].
    destruct (decide (k = "sub")) as [->|]; [set_solver|].
    destruct (decide (k = "exp")) as [->|]; [set_solver|].
    destruct (decide (k = "iss")) as [->|]; [set_solver|].
    by rewrite !lookup_insert_ne, lookup_empty in Hk by done.
  - do 2 (rewrite lookup_insert_ne by done). by rewrite lookup_insert_eq.
  - rewrite lookup_insert_ne by done. by rewrite lookup_insert_eq.
  - by rewrite lookup_insert_eq.
Qed.

(** C6: [AuthenticateUser] fails for the empty user id with the error
    "User Id cannot be empty" and returns no token; for every user id longer
    than 164 bytes it fails, returns no token, and the message of the error
    states the limit, as the exclusive bound 165 = 164 + 1 ("expected fewer
    than 165 characters"), and the actual length. The world is left as it
    was. *)
Theorem AuthenticateUser_rejects pn w :
  AuthenticateUser pn "" w
  = Returned ("", Some (errors.New "User Id cannot be empty")) w
  ∧ ∀ userId,
      164 < len userId →
      AuthenticateUser pn userId w
      = Returned
          ("",
           Some
             (errors.New
                ("User Id ('" +:+ userId
                   +:+ "') length too long (expected fewer than 165 characters, got "
                   +:+ itoa (len userId) +:+ ")")))
          w.
Proof.
  split; [done|]. intros userId Hlong. unfold AuthenticateUser.
  rewrite Errorf_user_length.
  destruct (Z.eqb_spec (len userId) 0); [lia|].
  change maxUserIdLength with 164.
  by destruct (Z.ltb_spec 164 (len userId)); [|lia].
Qed.


End user_id_claims.

(** ** Formats and URLs *)

Lemma append_assoc s1 s2 s3 : (s1 +:+ s2) +:+ s3 = s1 +:+ s2 +:+ s3.
Proof.
  induction s1 as [|c s1 IH]; [done|].
  change (String c ((s1 +:+ s2) +:+ s3) = String c (s1 +:+ s2 +:+ s3)).
  by f_equal.
Qed.

(** Text without [%] is copied to the output. *)
Lemma doPrintf_literal s rest args :
  percentFree s = true →
  fmt.doPrintf (s +:+ rest) args = (λ out, s +:+ out) <$> fmt.doPrintf rest args.
Proof.
  induction s as [|c s IH]; intros Hs.
  - change ("" +:+ rest) with rest. by destruct (fmt.doPrintf rest args).
  - cbn [percentFree allChars] in Hs. apply andb_prop in Hs as [Hc Hs].
    apply negb_true_iff in Hc.
    change (String c s +:+ rest) with (String c (s +:+ rest)).
    cbn [fmt.doPrintf]. rewrite Hc, IH by done.
    by destruct (fmt.doPrintf rest args).
Qed.

Lemma New_accepts instanceId secretKey w :
  instanceId ≠ "" → secretKey ≠ "" →
  New instanceId secretKey w
  = Returned
      (Some
         {| InstanceId := instanceId;
            SecretKey := secretKey;
            baseEndpoint :=
              "https://" +:+ instanceId +:+ ".pushnotifications.pusher.com";
            httpClient := {| http.Timeout := defaultRequestTimeout |} |},
       None)
      w.
Proof.
  intros Hi Hk. unfold New.
  destruct (decide (instanceId = "")); [done|].
  by destruct (decide (secretKey = "")).
Qed.

(** [PublishToUsers] posts to the URL of the wire protocol, whatever the
    instance id. *)
Lemma usersURL_spec instanceId secretKey client w :
  usersURL
    {| InstanceId := instanceId;
       SecretKey := secretKey;
       baseEndpoint :=
         "https://" +:+ instanceId +:+ ".pushnotifications.pusher.com";
       httpClient := client |}
    w
  = Returned (specUsersURL instanceId) w.
Proof.
  unfold specUsersURL, specInterestsURL. rewrite !append_assoc.
  unfold usersURL. cbn [baseEndpoint InstanceId].
  change (Sprintf _ _ w) with
    (Returned
       (("https://" +:+ instanceId +:+ ".pushnotifications.pusher.com")
          +:+ "/publish_api/v1/instances/" +:+ instanceId +:+ "/publishes/users")
       w).
  by rewrite !append_assoc.
Qed.

(** [PublishToInterests] does so when the instance id has no [%]. *)
Lemma interestsURL_spec instanceId secretKey client w :
  percentFree instanceId = true →
  interestsURL
    {| InstanceId := instanceId;
       SecretKey := secretKey;
       baseEndpoint :=
         "https://" +:+ instanceId +:+ ".pushnotifications.pusher.com";
       httpClient := client |}
    w
  = Returned (specInterestsURL instanceId) w.
Proof.
  intros Hfree. unfold interestsURL, Sprintf, fmt.Sprintf, inFragment.
  cbn [baseEndpoint InstanceId]. rewrite !append_assoc.
  rewrite (doPrintf_literal "https://") by done.
  rewrite (doPrintf_literal instanceId) by done.
  reflexivity.
Qed.

(** The URLs of a client that [New] built. *)
Lemma New_urls instanceId secretKey w pn :
  New instanceId secretKey w = Returned (Some pn, None) w →
  InstanceId pn = instanceId
  ∧ usersURL pn w = Returned (specUsersURL instanceId) w
  ∧ (percentFree instanceId = true →
     interestsURL pn w = Returned (specInterestsURL instanceId) w).
Proof.
  unfold New.
  destruct (decide (instanceId = "")); [done|].
  destruct (decide (secretKey = "")); [done|].
  change (Sprintf defaultBaseEndpointFormat [fmt.Str instanceId])
    with (mret (M := Go)
            ("https://" +:+ instanceId +:+ ".pushnotifications.pusher.com")).
  intros [= <-]. split; [done|]. split.
  - apply usersURL_spec.
  - apply interestsURL_spec.
Qed.

(** ** Decoding the publish response *)

Lemma findField_publishId key :
  json.findField ["publishId"] key
  = if decide (json.foldName key = json.foldName "publishId")
    then Some "publishId" else None.
Proof.
  unfold json.findField. cbn [find].
  destruct (String.eqb_spec key "publishId") as [->|Hne]; [done|].
  destruct (String.eqb_spec (json.foldName "publishId") (json.foldName key));
    by case_decide.
Qed.

Lemma object_skip struct members rest fields saved :
  Forall (λ m, json.foldName m.1 ≠ json.foldName "publishId") members →
  json.object struct ["publishId"] (members ++ rest) fields saved
  = json.object struct ["publishId"] rest fields saved.
Proof.
  induction 1 as [|[key x] members Hkey _ IH]; [done|].
  cbn [app json.object]. rewrite findField_publishId.
  by case_decide.
Qed.

Lemma Unmarshal_onlyField members v :
  onlyField "publishId" members v →
  json.Unmarshal publishResponse (json.Valid (json.Object members))
  = ({| PublishId := v |}, None).
Proof.
  intros (before & key & after & -> & Hkey & Hothers).
  apply Forall_app in Hothers as [Hbefore Hafter].
  unfold json.Unmarshal.
  cbn [json.structName json.tags publishResponse_struct].
  rewrite object_skip by done. cbn [json.object].
  rewrite findField_publishId. case_decide; [|done].
  rewrite <-(app_nil_r after), object_skip by done.
  cbn [json.object json.fromFields publishResponse_struct].
  by rewrite lookup_insert_eq.
Qed.

(** C8 (the defect): at the instance ids [%s] and [50%%], which [New]
    accepts, [PublishToInterests] does not post to
    "https://{instanceId}.pushnotifications.pusher.com/publish_api/v1/instances/{instanceId}/publishes":
    the base endpoint is part of the format string, so a [%s] in it takes
    the one operand and the verb of the path finds none, and a [%%] in it is
    written as a single [%]. [PublishToUsers], which passes the base endpoint
    as an operand, posts to the URL of the wire protocol. *)
Theorem interestsURL_format_injection w :
  (∃ pn,
     New "%s" "key" w = Returned (Some pn, None) w
     ∧ interestsURL pn w
       = Returned
           "https://%s.pushnotifications.pusher.com/publish_api/v1/instances/%!s(MISSING)/publishes"
           w
     ∧ specInterestsURL "%s"
       = "https://%s.pushnotifications.pusher.com/publish_api/v1/instances/%s/publishes"
     ∧ usersURL pn w = Returned (specUsersURL "%s") w)
  ∧ ∃ pn,
      New "50%%" "key" w = Returned (Some pn, None) w
      ∧ interestsURL pn w
        = Returned
            "https://50%.pushnotifications.pusher.com/publish_api/v1/instances/50%%/publishes"
            w
      ∧ specInterestsURL "50%%"
        = "https://50%%.pushnotifications.pusher.com/publish_api/v1/instances/50%%/publishes"
      ∧ usersURL pn w = Returned (specUsersURL "50%%") w.
Proof.
  split; (eexists; split; [reflexivity|]; by split; [|split]).
Qed.

Section response_claims.
Context `{Externals}.


End response_claims.

(** ** The client run on concrete inputs *)




(** C10 as stated does not hold: an interest of 165 exclamation marks fails
    with the length error, whose message names no character. *)
Lemma long_interest_length_error :
  let w := sampleWorld ∅ published in
  allChars specInterestChar bangs = false
  ∧ PublishToInterests (H := sampleExternals) samplePn [bangs] (Some 1%positive) w
    = Returned
        ("",
         Some
           (errors.New "Interest length is 165 which is over 164 characters"))
        w
  ∧ String.index 0 "!" "Interest length is 165 which is over 164 characters"
    = None.
Proof. vm_compute. repeat split; reflexivity. Qed.

(** The theorems above at concrete inputs. *)



Lemma PublishToInterests_accepts_valid_witness :
  let w := sampleWorld ∅ published in
  specInterests ["hello"; "donuts_2.0"; "a-b=c@d,e;f"] = true
  ∧ validateInterests ["hello"; "donuts_2.0"; "a-b=c@d,e;f"] w = Returned None w
  ∧ ∀ id err w',
      PublishToInterests (H := sampleExternals) samplePn
        ["hello"; "donuts_2.0"; "a-b=c@d,e;f"] (Some 1%positive) w
      = Returned (id, Some err) w' →
      errors.isWrapped err = true.
Proof.
  intros w.
  assert (specInterests ["hello"; "donuts_2.0"; "a-b=c@d,e;f"] = true) as Hvalid
    by (vm_compute; reflexivity).
  split; [exact Hvalid|].
  exact (PublishToInterests_accepts_valid (H := sampleExternals) samplePn
           ["hello"; "donuts_2.0"; "a-b=c@d,e;f"] (Some 1%positive) w Hvalid).
Defined.

Lemma PublishToInterests_rejects_invalid_witness :
  let w := sampleWorld ∅ published in
  let interests := repeat "hello" 11 in
  specInterests interests = false
  ∧ ∃ err,
      PublishToInterests (H := sampleExternals) samplePn interests
        (Some 1%positive) w
      = Returned ("", Some err) w
      ∧ requestsOf
          (PublishToInterests (H := sampleExternals) samplePn interests
             (Some 1%positive) w)
        = wire w
      ∧ errors.isWrapped err = false
      ∧ (interests = [] → err = errors.New "No interests were supplied")
      ∧ (10 < lenSlice interests →
         err = errors.New
                 ("Too many interests supplied (" +:+ itoa (lenSlice interests)
                    +:+ "): API only supports up to 10")).
Proof.
  intros w interests.
  assert (specInterests interests = false) as Hinvalid
    by (vm_compute; reflexivity).
  split; [exact Hinvalid|].
  exact (PublishToInterests_rejects_invalid (H := sampleExternals) samplePn
           interests (Some 1%positive) w Hinvalid).
Defined.

Lemma PublishToInterests_forbidden_character_witness :
  let w := sampleWorld ∅ published in
  (lenSlice (["hello"] ++ "foo!" :: ["world"]) <= 10
   ∧ forallb specInterest ["hello"] = true
   ∧ 1 <= len "foo!" <= 164
   ∧ allChars specInterestChar "foo!" = false)
  ∧ PublishToInterests (H := sampleExternals) samplePn
      (["hello"] ++ "foo!" :: ["world"]) (Some 1%positive) w
    = Returned
        ("",
         Some
           (errors.New
              "Interest `foo!` contains an forbidden character: Allowed characters are: ASCII upper/lower-case letters, numbers or one of _-=@,.:"))
        w.
Proof.
  intros w.
  assert (lenSlice (["hello"] ++ "foo!" :: ["world"]) <= 10) as Hcount
    by (vm_compute; discriminate).
  assert (forallb specInterest ["hello"] = true) as Hbefore
    by (vm_compute; reflexivity).
  assert (1 <= len "foo!" <= 164) as Hlen
    by (split; vm_compute; discriminate).
  assert (allChars specInterestChar "foo!" = false) as Hchar
    by (vm_compute; reflexivity).
  split; [by repeat split|].
  exact (PublishToInterests_forbidden_character (H := sampleExternals) samplePn
           ["hello"] "foo!" ["world"] (Some 1%positive) w
           Hcount Hbefore Hlen Hchar).
Defined.

Lemma AuthenticateUser_signs_claims_witness :
  let w := sampleWorld ∅ published in
  1 <= len "alice" <= 164
  ∧ ∃ claims : gmap string govalue,
      claims !! "sub" = Some (VString "alice")
      ∧ claims !! "exp" = Some (VInt (time.Unix (clock w) + 24 * 60 * 60))
      ∧ claims !! "iss"
        = Some (VString ("https://" +:+ InstanceId samplePn
                           +:+ ".pushnotifications.pusher.com"))
      ∧ (∀ k, is_Some (claims !! k) → k ∈ ["sub"; "exp"; "iss"])
      ∧ AuthenticateUser (H := sampleExternals) samplePn "alice" w
        = Returned
            match
              SignedString (Externals := sampleExternals)
                {| jwt.Method := jwt.SigningMethodHS256;
                   jwt.Header :=
                     <["typ" := VString "JWT"]>
                       (<["alg" := VString "HS256"]> ∅);
                   jwt.Claims := claims |}
                (SecretKey samplePn)
            with
            | inl tokenString => (tokenString, None)
            | inr signingError =>
                ("",
                 Some
                   (errors.Wrap signingError
                      "Failed to sign the JWT token used for User Authentication"))
            end
            w.
Proof.
  intros w.
  assert (1 <= len "alice" <= 164) as Hlen by (split; vm_compute; discriminate).
  split; [exact Hlen|].
  exact (AuthenticateUser_signs_claims (H := sampleExternals) samplePn "alice" w
           Hlen).
Defined.

Lemma AuthenticateUser_rejects_witness :
  let w := sampleWorld ∅ published in
  164 < len longUserId
  ∧ AuthenticateUser (H := sampleExternals) samplePn longUserId w
    = Returned
        ("",
         Some
           (errors.New
              ("User Id ('" +:+ longUserId
                 +:+ "') length too long (expected fewer than 165 characters, got "
                 +:+ itoa (len longUserId) +:+ ")")))
        w.
Proof.
  intros w.
  assert (164 < len longUserId) as Hlong by (vm_compute; reflexivity).
  split; [exact Hlong|].
  exact (proj2 (AuthenticateUser_rejects (H := sampleExternals) samplePn w)
           longUserId Hlong).
Defined.




(** * Further properties of the client *)

(** ** What the checks accept *)

Lemma interestChar_ascii c : specInterestChar c = true → (code c <? 128) = true.
Proof. by destruct c as [[] [] [] [] [] [] [] []]. Qed.

Lemma interest_chars_utf8 s :
  allChars specInterestChar s = true → utf8.ValidString s = true.
Proof.
  induction s as [|c s IH]; [done|]. cbn [allChars utf8.ValidString].
  intros [Hc Hs]%andb_prop. rewrite (interestChar_ascii c Hc). by apply IH.
Qed.

Lemma specInterest_specUserId s : specInterest s = true → specUserId s = true.
Proof.
  unfold specInterest, specUserId.
  intros [Hlen Hchars]%andb_prop. rewrite Hlen. by apply interest_chars_utf8.
Qed.

Section checks.
Context `{Externals}.

Lemma validateUsers_accepts l w :
  ∃ r, validateUsers l w = Returned r w ∧ (r = None ↔ validUserIds l = true).
Proof.
  unfold validateUsers, validUserIds. rewrite Sprintf_too_many_users.
  assert (0 <= lenSlice l) by (unfold lenSlice; lia).
  change maxNumUserIds with 1000.
  destruct (Z.eqb_spec (lenSlice l) 0).
  { eexists. split; [done|]. by destruct (Z.leb_spec 1 (lenSlice l)); [lia|]. }
  destruct (Z.ltb_spec 1000 (lenSlice l)).
  { eexists. split; [done|].
    destruct (Z.leb_spec (lenSlice l) 1000); [lia|]. by rewrite andb_false_r. }
  destruct (rangeUsers_pure 0 l w) as (r & Hr & Hnone & _).
  exists r. split; [done|].
  destruct (Z.leb_spec 1 (lenSlice l)); [|lia].
  by destruct (Z.leb_spec (lenSlice l) 1000); [|lia].
Qed.

(** The checks of an entry point pass exactly on the lists it accepts. *)
Lemma validate_accepted t ids w :
  accepted t ids = true → validate t ids w = Returned None w.
Proof.
  destruct t; unfold accepted, validate; intros Hok.
  - destruct (validateInterests_pure ids w) as (r & Hr & Hnone & _).
    by rewrite Hr, (proj2 Hnone Hok).
  - destruct (validateUsers_accepts ids w) as (r & Hr & Hnone).
    by rewrite Hr, (proj2 Hnone Hok).
Qed.

Lemma validate_not_accepted t ids w :
  accepted t ids = false →
  ∃ e, validate t ids w = Returned (Some e) w ∧ errors.isWrapped e = false.
Proof.
  destruct t; unfold accepted, validate; intros Hbad.
  - destruct (validateInterests_pure ids w) as ([e|] & Hr & Hnone & Hwrap).
    + exists e. eauto.
    + by rewrite (proj1 Hnone eq_refl) in Hbad.
  - destruct (validateUsers_accepts ids w) as ([e|] & Hr & Hnone).
    + exists e. split; [done|].
      destruct (validateUsers_pure ids w) as (r & Hr' & _ & Hwrap).
      rewrite Hr in Hr'. injection Hr' as <-. by apply Hwrap.
    + by rewrite (proj1 Hnone eq_refl) in Hbad.
Qed.

(** X5: [PublishToUsers] passes its checks exactly on the lists of 1 to 1000
    user ids that are each 1 to 164 bytes of valid UTF-8: on such a list the
    checks return no error, on every other list the call returns an error
    that is not wrapped, at once and with the world as it was; the error of
    the empty list is "Must supply at least one user id". *)
Theorem PublishToUsers_checks pn users request w :
  (validUserIds users = true → validateUsers users w = Returned None w)
  ∧ (validUserIds users = false →
     ∃ err,
       PublishToUsers pn users request w = Returned ("", Some err) w
       ∧ errors.isWrapped err = false)
  ∧ (users = [] →
     PublishToUsers pn users request w
     = Returned ("", Some (errors.New "Must supply at least one user id")) w).
Proof.
  split; [|split].
  - apply (validate_accepted Users).
  - intros Hbad.
    destruct (validate_not_accepted Users users w Hbad) as (e & Hv & Hwrap).
    exists e. split; [|done]. by apply (publish_invalid Users).
  - intros ->. by apply (publish_invalid Users).
Qed.

(** X6: in a list of at most 10 interests whose earlier entries are valid,
    an empty interest makes [PublishToInterests] fail with "An empty
    interest name is not valid", and an interest longer than 164 bytes makes
    it fail with the length error, which states the length of the interest;
    nothing is sent and the payload is not touched. *)
Theorem PublishToInterests_entry_errors pn before interest after request w :
  lenSlice (before ++ interest :: after) <= 10 →
  forallb specInterest before = true →
  (interest = "" →
   PublishToInterests pn (before ++ interest :: after) request w
   = Returned ("", Some (errors.New "An empty interest name is not valid")) w)
  ∧ (164 < len interest →
     PublishToInterests pn (before ++ interest :: after) request w
     = Returned
         ("",
          Some
            (errors.New
               ("Interest length is " +:+ itoa (len interest)
                  +:+ " which is over 164 characters")))
         w).
Proof.
  intros Hcount Hbefore.
  assert (validateInterests (before ++ interest :: after) w
          = rangeInterests (interest :: after) w) as Hloop.
  { unfold validateInterests.
    assert (0 < lenSlice (before ++ interest :: after)).
    { unfold lenSlice. rewrite length_app. simpl. lia. }
    destruct (Z.eqb_spec (lenSlice (before ++ interest :: after)) 0); [lia|].
    destruct (Z.ltb_spec 10 (lenSlice (before ++ interest :: after))); [lia|].
    by rewrite rangeInterests_skip. }
  rewrite rangeInterests_cons in Hloop. split.
  - intros ->. apply (publish_invalid Interests). unfold validate.
    by rewrite Hloop.
  - intros Hlong. apply (publish_invalid Interests). unfold validate.
    rewrite Hloop. pose proof (len_nonneg interest).
    destruct (Z.eqb_spec (len interest) 0); [lia|].
    by destruct (Z.ltb_spec 164 (len interest)); [|lia].
Qed.

(** X7: every interest list that [PublishToInterests] accepts also passes
    the checks of [PublishToUsers]: the allowed characters are ASCII, so
    each interest is valid UTF-8, and the bounds on the length of an entry
    are the same. *)
Theorem interests_pass_user_checks interests w :
  validateInterests interests w = Returned None w →
  validateUsers interests w = Returned None w.
Proof.
  intros Hv.
  destruct (validateInterests_pure interests w) as (r & Hr & Hnone & _).
  rewrite Hv in Hr. injection Hr as <-.
  pose proof (proj1 Hnone eq_refl) as Hok.
  apply (validate_accepted Users). unfold accepted, validUserIds.
  unfold specInterests in Hok.
  apply andb_prop in Hok as [[H1 H10]%andb_prop Hall].
  rewrite H1. apply Z.leb_le in H10.
  destruct (Z.leb_spec (lenSlice interests) 1000); [|lia].
  apply forallb_forall. intros s Hs.
  apply specInterest_specUserId. by apply (proj1 (forallb_forall _ _) Hall).
Qed.

End checks.

(** ** Construction *)

(** X1: [New] returns a client exactly when both credentials are non-empty;
    the client keeps them as given, its base endpoint is
    "https://{instanceId}.pushnotifications.pusher.com" and its timeout one
    minute. With an empty instance id the error is "Instance Id cannot be an
    empty string", also when the secret key is empty too; with only the
    secret key empty it is "Secret Key cannot be an empty string". [New]
    leaves the world as it was. *)
Theorem New_credentials instanceId secretKey w :
  (instanceId = "" →
   New instanceId secretKey w
   = Returned
       (None, Some (errors.New "Instance Id cannot be an empty string")) w)
  ∧ (instanceId ≠ "" → secretKey = "" →
     New instanceId secretKey w
     = Returned
         (None, Some (errors.New "Secret Key cannot be an empty string")) w)
  ∧ (∀ pn err w',
       New instanceId secretKey w = Returned (Some pn, err) w' →
       err = None ∧ w' = w
       ∧ instanceId ≠ "" ∧ secretKey ≠ ""
       ∧ InstanceId pn = instanceId ∧ SecretKey pn = secretKey
       ∧ baseEndpoint pn
         = "https://" +:+ instanceId +:+ ".pushnotifications.pusher.com"
       ∧ http.Timeout (httpClient pn) = 60 * time.Second)
  ∧ (instanceId ≠ "" → secretKey ≠ "" →
     ∃ pn, New instanceId secretKey w = Returned (Some pn, None) w).
Proof.
  split; [|split; [|split]].
  - by intros ->.
  - intros Hi ->. unfold New. by destruct (decide (instanceId = "")).
  - intros pn err w'. unfold New.
    destruct (decide (instanceId = "")); [done|].
    destruct (decide (secretKey = "")); [done|].
    change (Sprintf defaultBaseEndpointFormat [fmt.Str instanceId])
      with (mret (M := Go)
              ("https://" +:+ instanceId +:+ ".pushnotifications.pusher.com")).
    by intros [= <- <- <-].
  - intros Hi Hk. eexists. by apply New_accepts.
Qed.

(** ** Tokens *)

Section tokens.
Context `{Externals}.

(** The token [AuthenticateUser] signs for a user id at an instant. *)
Lemma AuthenticateUser_accepted pn userId w :
  1 <= len userId <= 164 →
  AuthenticateUser pn userId w
  = Returned
      match
        SignedString
          (jwt.NewWithClaims jwt.SigningMethodHS256
             (<["sub" := VString userId]>
                (<["exp" := VInt (time.Unix (time.Add (clock w) (24 * time.Hour)))]>
                   (<["iss" :=
                        VString
                          ("https://" +:+ InstanceId pn
                             +:+ ".pushnotifications.pusher.com")]> ∅))))
          (SecretKey pn)
      with
      | inl tokenString => (tokenString, None)
      | inr signingError =>
          ("",
           Some
             (errors.Wrap signingError
                "Failed to sign the JWT token used for User Authentication"))
      end
      w.
Proof.
  intros [H1 H164]. unfold AuthenticateUser.
  destruct (Z.eqb_spec (len userId) 0); [lia|].
  change maxUserIdLength with 164.
  destruct (Z.ltb_spec 164 (len userId)); [lia|].
  unfold mbind, Go_bind, Now. by destruct (SignedString _ _).
Qed.


(** X9: the expiry [AuthenticateUser] puts in a token is a whole number of
    seconds: it is the instant 24 hours after the clock, rounded down to the
    second. It is never later than 24 hours after the clock, less than one
    second earlier, and always later than the clock. *)
Theorem AuthenticateUser_expiry pn userId w :
  1 <= len userId <= 164 →
  ∃ token exp,
    jwt.Claims token !! "exp" = Some (VInt exp)
    ∧ clock w + 24 * time.Hour - time.Second < exp * time.Second
    ∧ exp * time.Second <= clock w + 24 * time.Hour
    ∧ clock w < exp * time.Second
    ∧ AuthenticateUser pn userId w
      = Returned
          match SignedString token (SecretKey pn) with
          | inl tokenString => (tokenString, None)
          | inr signingError =>
              ("",
               Some
                 (errors.Wrap signingError
                    "Failed to sign the JWT token used for User Authentication"))
          end
          w.
Proof.
  intros Hlen. eexists _, _.
  split; [|split; [|split; [|split; [|by apply AuthenticateUser_accepted]]]].
  - cbn [jwt.Claims jwt.NewWithClaims].
    rewrite lookup_insert_ne by done. apply lookup_insert_eq.
  - unfold time.Unix, time.Add, time.Hour, time.Minute, time.Second.
    pose proof (Z.div_mod (clock w + 24 * (60 * (60 * 1000000000))) 1000000000).
    pose proof (Z.mod_pos_bound (clock w + 24 * (60 * (60 * 1000000000)))
                  1000000000).
    lia.
  - unfold time.Unix, time.Add, time.Hour, time.Minute, time.Second.
    pose proof (Z.div_mod (clock w + 24 * (60 * (60 * 1000000000))) 1000000000).
    pose proof (Z.mod_pos_bound (clock w + 24 * (60 * (60 * 1000000000)))
                  1000000000).
    lia.
  - unfold time.Unix, time.Add, time.Hour, time.Minute, time.Second.
    pose proof (Z.div_mod (clock w + 24 * (60 * (60 * 1000000000))) 1000000000).
    pose proof (Z.mod_pos_bound (clock w + 24 * (60 * (60 * 1000000000)))
                  1000000000).
    lia.
Qed.

End tokens.

(** ** Failures of the publishing routine *)

Lemma Sprintf_api_error e d :
  Sprintf "%s: %s" [fmt.Str e; fmt.Str d] = mret (e +:+ ": " +:+ d).
Proof.
  transitivity (mret (M := Go) (e +:+ ": " +:+ d +:+ "")); [reflexivity|].
  by rewrite append_empty_r.
Qed.

Lemma sequence_inr l e :
  json.sequence l = inr e → ∃ k, (k, inr e) ∈ l.
Proof.
  induction l as [|[k [j|e']] l IH]; simpl; [done| |].
  - destruct (json.sequence l) as [js|e'']; [done|].
    intros [= <-]. destruct (IH eq_refl) as [k' Hk']. exists k'. by right.
  - intros [= <-]. exists k. by left.
Qed.

(** A map with a value that cannot be encoded cannot be marshalled, and the
    error is the one of a value of the map. *)
Lemma Marshal_map_fails (m : gmap string govalue) k x e :
  m !! k = Some x → json.encode x = inr e →
  ∃ e' k' x',
    json.Marshal (VMap m) = inr e'
    ∧ m !! k' = Some x' ∧ json.encode x' = inr e'.
Proof.
  intros Hk Hx. unfold json.Marshal. simpl.
  pose proof (merge_sort_Permutation json.byKey
    (map_fold (λ k x acc, (k, json.encode x) :: acc) [] m)) as Hperm.
  destruct (json.sequence _) as [members|e'] eqn:Hseq.
  - apply sequence_inl in Hseq. rewrite Hseq, encoded_members in Hperm.
    assert ((k, inr e) ∈ prod_map id json.encode <$> map_to_list m) as Hin.
    { apply list_elem_of_fmap. exists (k, x).
      split; [by simpl; rewrite Hx | by apply elem_of_map_to_list]. }
    rewrite <-Hperm in Hin.
    by apply list_elem_of_fmap in Hin as [[k' j'] [? _]].
  - apply sequence_inr in Hseq as [k' Hin].
    rewrite Hperm, encoded_members in Hin.
    apply list_elem_of_fmap in Hin as [[k'' x'] [Heq Hx']].
    simpl in Heq. injection Heq as -> Henc.
    exists e', k'', x'. by apply elem_of_map_to_list in Hx'.
Qed.

Section failures.
Context `{Externals}.

(** X10: an answer with a status other than 200, also another 2xx status,
    whose body decodes as an error response makes [publishToAPI] fail; the
    text of the error is "Failed to publish notification: {error}:
    {description}", and the request was sent. For the body
    [{"error": e, "description": d}] these are [e] and [d]. *)
Theorem publishToAPI_api_error pn url body w status data p :
  urlParseError url = None →
  network w (publishRequest pn url body)
  = http.DoResponse status (http.ReadAll data) →
  status ≠ 200 →
  json.Unmarshal publishErrorResponse data = (p, None) →
  (∃ err,
     publishToAPI pn url body w
     = Returned ("", Some err) (afterSending w (publishRequest pn url body))
     ∧ errors.Error err
       = "Failed to publish notification: " +:+ Error p +:+ ": "
           +:+ Description p)
  ∧ ∀ e d,
      data
      = json.Valid
          (json.Object
             [("error", json.String e); ("description", json.String d)]) →
      Error p = e ∧ Description p = d.
Proof.
  intros Hurl Hans Hstatus Hdec. split.
  - exists
      (errors.Wrap (errors.New (Error p +:+ ": " +:+ Description p))
         "Failed to publish notification").
    split; [|reflexivity].
    unfold publishToAPI, http.NewRequest. rewrite Hurl.
    unfold mbind at 1. unfold Go_bind at 1. unfold Do.
    change (http.Header_Add _ _ _) with (publishRequest pn url body).
    rewrite Hans.
    destruct (Z.eqb_spec status http.StatusOK) as [->|_]; [done|].
    by rewrite Hdec, Sprintf_api_error.
  - intros e d ->. by injection Hdec as <-.
Qed.

(** X11: the context of an error of [publishToAPI] tells the stage that
    failed, and the error keeps its cause. "Failed to prepare the publish
    request": the URL did not parse and nothing was sent. "Failed to publish
    notifications due to a network error": the transport failed. "Failed to
    read publish notification response due to a network error": the body
    could not be read. "Failed to read publish notification response due to
    invalid JSON": the body did not decode. "Failed to publish
    notification": the service answered with a status other than 200. In
    every case no identifier is returned. *)
Theorem publishToAPI_error_stage pn url body w id err w' :
  publishToAPI pn url body w = Returned (id, Some err) w' →
  let req := publishRequest pn url body in
  id = ""
  ∧ ∃ cause context,
      err = errors.Wrap cause context
      ∧ ((context = msgPrepare ∧ urlParseError url = Some cause ∧ w' = w)
         ∨ (context = msgNetwork ∧ network w req = http.DoError cause
            ∧ w' = afterSending w req)
         ∨ (context = msgRead
            ∧ (∃ status, network w req = http.DoResponse status (http.ReadError cause))
            ∧ w' = afterSending w req)
         ∨ (context = msgInvalidJSON
            ∧ (∃ status data,
                 network w req = http.DoResponse status (http.ReadAll data)
                 ∧ if status =? 200
                   then (json.Unmarshal publishResponse data).2 = Some cause
                   else (json.Unmarshal publishErrorResponse data).2 = Some cause)
            ∧ w' = afterSending w req)
         ∨ (context = msgAPI
            ∧ (∃ status data p,
                 network w req = http.DoResponse status (http.ReadAll data)
                 ∧ status ≠ 200
                 ∧ json.Unmarshal publishErrorResponse data = (p, None)
                 ∧ cause = errors.New (Error p +:+ ": " +:+ Description p))
            ∧ w' = afterSending w req)).
Proof.
  intros Hcall req.
  destruct (urlParseError url) as [e|] eqn:Hurl.
  { rewrite (publishToAPI_blocked pn url body w e Hurl) in Hcall.
    injection Hcall as <- <- <-. split; [done|]. eexists _, _.
    split; [reflexivity|]. left. done. }
  unfold publishToAPI, http.NewRequest in Hcall. rewrite Hurl in Hcall.
  unfold mbind at 1 in Hcall. unfold Go_bind at 1 in Hcall. unfold Do in Hcall.
  change (http.Header_Add _ _ _) with req in Hcall.
  change {| maps := maps w; wire := wire w ++ [req]; clock := clock w;
            network := network w |} with (afterSending w req) in Hcall.
  destruct (network w req) as [e|status [e|data]] eqn:Hans.
  - injection Hcall as <- <- <-. split; [done|]. eexists _, _.
    split; [reflexivity|]. right; left. done.
  - injection Hcall as <- <- <-. split; [done|]. eexists _, _.
    split; [reflexivity|]. do 2 right; left. eauto.
  - destruct (Z.eqb_spec status http.StatusOK) as [->|Hne].
    + destruct (json.Unmarshal publishResponse data) as [p [e|]] eqn:Hdec;
        [|done].
      injection Hcall as <- <- <-. split; [done|]. eexists _, _.
      split; [reflexivity|]. do 3 right; left.
      split; [done|]. split; [|done]. exists 200, data. by rewrite Hdec.
    + destruct (json.Unmarshal publishErrorResponse data) as [p [e|]] eqn:Hdec.
      * injection Hcall as <- <- <-. split; [done|]. eexists _, _.
        split; [reflexivity|]. do 3 right; left.
        split; [done|]. split; [|done]. exists status, data.
        destruct (Z.eqb_spec status 200); [done|]. by rewrite Hdec.
      * rewrite Sprintf_api_error in Hcall.
        injection Hcall as <- <- <-. split; [done|]. eexists _, _.
        split; [reflexivity|]. do 4 right.
        split; [done|]. split; [|done]. by exists status, data, p.
Qed.

(** X12: a payload that holds a value [json.Marshal] cannot encode makes a
    call that passed its checks fail with the context "Failed to marshal the
    publish request JSON body" around the error of such a value; no request
    is sent, and the caller's map has already received the injected key. *)
Theorem publish_marshal_failure t pn ids l content w k x e :
  accepted t ids = true →
  maps w !! l = Some content →
  k ≠ injectedKey t →
  content !! k = Some x →
  json.encode x = inr e →
  ∃ e' k' x',
    content !! k' = Some x' ∧ json.encode x' = inr e'
    ∧ publish t pn ids (Some l) w
      = Returned
          ("",
           Some
             (errors.Wrap e' "Failed to marshal the publish request JSON body"))
          (afterStoring w l (<[injectedKey t := VStrings ids]> content)).
Proof.
  intros Hok Hl Hk Hx He.
  pose proof (validate_accepted t ids w Hok) as Hv.
  destruct (Marshal_map_fails (<[injectedKey t := VStrings ids]> content) k x e)
    as (e' & k' & x' & Hfail & Hk' & He'); [by rewrite lookup_insert_ne|done|].
  exists e', k', x'.
  rewrite (publish_valid t pn ids l content w Hv Hl), Hfail.
  split; [|done].
  destruct (decide (k' = injectedKey t)) as [->|Hne].
  - rewrite lookup_insert_eq in Hk'. by injection Hk' as <-.
  - by rewrite lookup_insert_ne in Hk'.
Qed.

(** X4: with a nil payload map, a call whose list passes the checks panics
    at the assignment of the injected key and sends nothing; a call whose
    list fails the checks returns their error as with any other map. *)
Theorem publish_nil_payload t pn ids w :
  (accepted t ids = true →
   publish t pn ids None w = Panicked "assignment to entry in nil map" w)
  ∧ (accepted t ids = false →
     ∃ err,
       publish t pn ids None w = Returned ("", Some err) w
       ∧ errors.isWrapped err = false).
Proof.
  split.
  - intros Hok. apply publish_nil_map. by apply validate_accepted.
  - intros Hbad.
    destruct (validate_not_accepted t ids w Hbad) as (e & Hv & Hwrap).
    exists e. split; [by apply publish_invalid|done].
Qed.

End failures.

(** ** What a publish call leaves behind *)

Section effects.
Context `{Externals}.

(** A call that passed its checks and returned stored the injected key in
    the caller's map, touched nothing else of the store, and sent at most
    the one request [publishToAPI] builds for the URL of the entry point. *)
Lemma publish_effects t pn ids l content w r w' :
  accepted t ids = true →
  maps w !! l = Some content →
  publish t pn ids (Some l) w = Returned r w' →
  let w1 := afterStoring w l (<[injectedKey t := VStrings ids]> content) in
  w' = w1
  ∨ ∃ url body,
      targetURL t pn w = Returned url w
      ∧ json.Marshal (VMap (<[injectedKey t := VStrings ids]> content))
        = inl body
      ∧ w' = afterSending w1 (publishRequest pn url body).
Proof.
  intros Hok Hl Hcall w1. destruct r as [id err].
  pose proof (validate_accepted t ids w Hok) as Hv.
  destruct (publish_returned t pn ids (Some l) w id err w' Hv Hcall)
    as (l' & content' & [= <-] & Hl' & Hcases).
  rewrite Hl in Hl'. injection Hl' as <-.
  destruct Hcases as [(-> & _)|(body & url & Hbody & Hurl & _ & -> & _)];
    [by left|].
  right. exists url, body. split; [|done].
  destruct (targetURL_pure t pn) as [[url' Hurl']|Hurl'];
    rewrite Hurl' in Hurl; [|done].
  injection Hurl as <-. apply Hurl'.
Qed.

(** X3: when a call that passed its checks returns, with an identifier or
    with an error, the caller's map is the map it was with the injected key
    set to the list; the other maps of the store, the clock and the network
    are as before, and the requests sent so far are still on the wire,
    followed by at most one more. *)
Theorem publish_stores_key t pn ids l content w r w' :
  accepted t ids = true →
  maps w !! l = Some content →
  publish t pn ids (Some l) w = Returned r w' →
  maps w' = <[l := <[injectedKey t := VStrings ids]> content]> (maps w)
  ∧ (∀ l', l' ≠ l → maps w' !! l' = maps w !! l')
  ∧ clock w' = clock w
  ∧ network w' = network w
  ∧ (wire w' = wire w ∨ ∃ req, wire w' = wire w ++ [req]).
Proof.
  intros Hok Hl Hcall.
  destruct (publish_effects t pn ids l content w r w' Hok Hl Hcall)
    as [->|(url & body & _ & _ & ->)]; cbn [maps clock network wire afterStoring
      afterSending].
  - split; [done|]. split; [|by auto].
    intros l' Hne. by rewrite lookup_insert_ne.
  - split; [done|]. split; [|by eauto].
    intros l' Hne. by rewrite lookup_insert_ne.
Qed.

(** X14: two calls on the same map add up: after both returned, the map
    holds the key of the second call set to its list, over the key of the
    first call set to its list. Two calls of the same entry point leave the
    list of the second one only; calls of the two entry points leave both
    keys. *)
Theorem publish_twice t1 t2 pn ids1 ids2 l content w r1 w1 r2 w2 :
  accepted t1 ids1 = true →
  accepted t2 ids2 = true →
  maps w !! l = Some content →
  publish t1 pn ids1 (Some l) w = Returned r1 w1 →
  publish t2 pn ids2 (Some l) w1 = Returned r2 w2 →
  maps w2 !! l
  = Some
      (<[injectedKey t2 := VStrings ids2]>
         (<[injectedKey t1 := VStrings ids1]> content))
  ∧ (t1 = t2 →
     maps w2 !! l = Some (<[injectedKey t2 := VStrings ids2]> content))
  ∧ (t1 ≠ t2 →
     ∀ m, maps w2 !! l = Some m →
          m !! injectedKey t1 = Some (VStrings ids1)
          ∧ m !! injectedKey t2 = Some (VStrings ids2)).
Proof.
  intros Hok1 Hok2 Hl Hcall1 Hcall2.
  destruct (publish_effects t1 pn ids1 l content w r1 w1 Hok1 Hl Hcall1)
    as [Hw1|(url & body & _ & _ & Hw1)].
  all: assert (maps w1 !! l = Some (<[injectedKey t1 := VStrings ids1]> content))
         as Hl1 by (rewrite Hw1; apply lookup_insert_eq).
  all: assert (maps w2 !! l
               = Some (<[injectedKey t2 := VStrings ids2]>
                         (<[injectedKey t1 := VStrings ids1]> content))) as Hl2
         by (destruct (publish_effects t2 pn ids2 l _ w1 r2 w2 Hok2 Hl1 Hcall2)
               as [->|(? & ? & _ & _ & ->)]; apply lookup_insert_eq).
  all: split; [done|]; split;
    [intros ->; by rewrite Hl2, insert_insert_eq
    |intros Hne m Hm; rewrite Hl2 in Hm; injection Hm as <-;
     split; [|apply lookup_insert_eq];
     rewrite lookup_insert_ne by (by destruct t1, t2);
     apply lookup_insert_eq].
Qed.

(** X2: the request a publish call sends is a POST to the URL of its entry
    point that carries exactly three headers, in this order: the bearer
    authorization with the secret key, the JSON content type, and the name
    and version of the library. A call sends at most one request. *)
Theorem publish_request_shape t pn ids request w r w' req :
  publish t pn ids request w = Returned r w' →
  wire w' = wire w ++ [req] →
  http.Method req = "POST"
  ∧ targetURL t pn w = Returned (http.URL req) w
  ∧ http.Header req
    = [("Authorization", "Bearer " +:+ SecretKey pn);
       ("Content-Type", "application/json");
       ("X-Pusher-Library", "pusher-push-notifications-go " +:+ sdkVersion)].
Proof.
  intros Hcall Hwire. destruct r as [id err].
  destruct (validate_pure t ids w) as ([e|] & Hv & _ & _).
  { rewrite (publish_invalid t pn ids request w e Hv) in Hcall.
    injection Hcall as _ _ <-. by destruct (wire_grows _ _ (eq_sym Hwire)). }
  destruct (publish_returned t pn ids request w id err w' Hv Hcall)
    as (l & content & -> & Hl & [(-> & _)|Hsent]).
  { by destruct (wire_grows _ _ (eq_sym Hwire)). }
  destruct Hsent as (body & url & _ & Hurl & _ & -> & _).
  apply app_inj_tail in Hwire as [_ <-].
  split; [done|]. split; [|done]. cbn [http.URL publishRequest].
  destruct (targetURL_pure t pn) as [[url' Hurl']|Hurl'];
    rewrite Hurl' in Hurl; [|done].
  injection Hurl as <-. apply Hurl'.
Qed.

(** X15: a client that [New] built posts user publishes to
    "https://{id}.pushnotifications.pusher.com/publish_api/v1/instances/{id}/publishes/users"
    for every instance id, and interest publishes to the same URL without
    "/users" for every instance id without the byte [%]. *)
Theorem New_client_posts_to instanceId secretKey w0 pn t ids request w r w' req :
  New instanceId secretKey w0 = Returned (Some pn, None) w0 →
  publish t pn ids request w = Returned r w' →
  wire w' = wire w ++ [req] →
  (t = Users → http.URL req = specUsersURL instanceId)
  ∧ (t = Interests → percentFree instanceId = true →
     http.URL req = specInterestsURL instanceId).
Proof.
  intros Hnew Hcall Hwire. destruct r as [id err].
  destruct (validate_pure t ids w) as ([e|] & Hv & _ & _).
  { rewrite (publish_invalid t pn ids request w e Hv) in Hcall.
    injection Hcall as _ _ <-. by destruct (wire_grows _ _ (eq_sym Hwire)). }
  destruct (publish_returned t pn ids request w id err w' Hv Hcall)
    as (l & content & -> & Hl & [(-> & _)|Hsent]).
  { by destruct (wire_grows _ _ (eq_sym Hwire)). }
  destruct Hsent as (body & url & _ & Hurl & _ & -> & _).
  apply app_inj_tail in Hwire as [_ <-]. cbn [http.URL publishRequest].
  unfold New in Hnew.
  destruct (decide (instanceId = "")); [done|].
  destruct (decide (secretKey = "")); [done|].
  change (Sprintf defaultBaseEndpointFormat [fmt.Str instanceId])
    with (mret (M := Go)
            ("https://" +:+ instanceId +:+ ".pushnotifications.pusher.com"))
    in Hnew.
  injection Hnew as <-. split.
  - intros ->. cbn [targetURL] in Hurl. rewrite usersURL_spec in Hurl.
    by injection Hurl as <-.
  - intros -> Hfree. cbn [targetURL] in Hurl.
    rewrite interestsURL_spec in Hurl by done. by injection Hurl as <-.
Qed.

(** X13: the whole of a successful interest publish. For a client that
    [New] built with an instance id without [%], a list of interests that
    passes the checks and a payload that marshals once the interests are
    stored in it, when the URL parses and the service answers the request
    with status 200 and one [publishId] string, [PublishToInterests] returns
    that string and no error; it sent exactly that one request, and the
    caller's map holds the interests. *)
Theorem PublishToInterests_succeeds
    instanceId secretKey w0 pn interests l content w body members v :
  New instanceId secretKey w0 = Returned (Some pn, None) w0 →
  percentFree instanceId = true →
  validateInterests interests w = Returned None w →
  maps w !! l = Some content →
  json.Marshal (VMap (<["interests" := VStrings interests]> content)) = inl body →
  urlParseError (specInterestsURL instanceId) = None →
  network w (publishRequest pn (specInterestsURL instanceId) body)
  = ok200 members →
  onlyField "publishId" members v →
  PublishToInterests pn interests (Some l) w
  = Returned (v, None)
      (afterSending
         (afterStoring w l (<["interests" := VStrings interests]> content))
         (publishRequest pn (specInterestsURL instanceId) body)).
Proof.
  intros Hnew Hfree Hv Hl Hbody Hparse Hans Honly.
  change (PublishToInterests pn interests (Some l) w)
    with (publish Interests pn interests (Some l) w).
  rewrite (publish_valid Interests pn interests l content w Hv Hl).
  cbn [injectedKey]. rewrite Hbody.
  unfold mbind, Go_bind. cbn [targetURL].
  unfold New in Hnew.
  destruct (decide (instanceId = "")); [done|].
  destruct (decide (secretKey = "")); [done|].
  change (Sprintf defaultBaseEndpointFormat [fmt.Str instanceId])
    with (mret (M := Go)
            ("https://" +:+ instanceId +:+ ".pushnotifications.pusher.com"))
    in Hnew.
  injection Hnew as <-.
  rewrite interestsURL_spec by done.
  set (pn := {| InstanceId := instanceId |}) in *.
  set (w1 := afterStoring w l _).
  destruct (publishToAPI_sent pn (specInterestsURL instanceId) body w1 Hparse)
    as (id & err & -> & _ & _ & Hdec).
  destruct (Hdec _ {| PublishId := v |} Hans (Unmarshal_onlyField _ _ Honly))
    as [-> ->].
  done.
Qed.

End effects.

(** ** Answers with status 200 *)

Lemma object_app struct tags l1 l2 fields saved :
  json.object struct tags (l1 ++ l2) fields saved
  = json.object struct tags l2
      (json.object struct tags l1 fields saved).1
      (json.object struct tags l1 fields saved).2.
Proof.
  revert fields saved. induction l1 as [|[key x] l1 IH]; intros fields saved;
    [done|].
  cbn [app json.object].
  destruct (json.findField tags key); [|apply IH].
  destruct x; apply IH.
Qed.

(** Once an error is saved, it is the error of the decoding. *)
Lemma object_saved struct tags members fields e :
  (json.object struct tags members fields (Some e)).2 = Some e.
Proof.
  revert fields. induction members as [|[key x] members IH]; intros fields;
    [done|].
  cbn [json.object].
  destruct (json.findField tags key); [|apply IH].
  destruct x; apply IH.
Qed.

Section status_ok.
Context `{Externals}.

Lemma publishToAPI_answered pn url body w data :
  urlParseError url = None →
  network w (publishRequest pn url body)
  = http.DoResponse 200 (http.ReadAll data) →
  publishToAPI pn url body w
  = Returned
      match json.Unmarshal publishResponse data with
      | (pubResponse, Some e) => ("", Some (errors.Wrap e msgInvalidJSON))
      | (pubResponse, None) => (PublishId pubResponse, None)
      end
      (afterSending w (publishRequest pn url body)).
Proof.
  intros Hurl Hans. unfold publishToAPI, http.NewRequest. rewrite Hurl.
  unfold mbind at 1. unfold Go_bind at 1. unfold Do.
  change (http.Header_Add _ _ _) with (publishRequest pn url body).
  rewrite Hans. cbn [Z.eqb http.StatusOK Pos.eqb].
  by destruct (json.Unmarshal publishResponse data) as [p [e|]].
Qed.

(** X16: an answer with status 200 whose body has a member selecting the
    field [publishId] with a value that is neither a string nor null (a
    number, a boolean, an array, an object) makes [publishToAPI] fail with
    the context of invalid JSON: it does not return an empty identifier. *)
Theorem publishToAPI_publishId_not_a_string pn url body w before key x after :
  urlParseError url = None →
  network w (publishRequest pn url body) = ok200 (before ++ (key, x) :: after) →
  json.foldName key = json.foldName "publishId" →
  (∀ s, x ≠ json.String s) → x ≠ json.Null →
  ∃ cause,
    publishToAPI pn url body w
    = Returned ("", Some (errors.Wrap cause msgInvalidJSON))
        (afterSending w (publishRequest pn url body)).
Proof.
  intros Hurl Hans Hkey Hstr Hnull.
  rewrite (publishToAPI_answered pn url body w _ Hurl Hans).
  unfold json.Unmarshal.
  cbn [json.structName json.tags publishResponse_struct].
  rewrite object_app.
  destruct (json.object _ _ before ∅ None) as [fields saved].
  cbn [fst snd json.object]. rewrite findField_publishId.
  destruct (decide _) as [_|Hne]; [|done].
  assert (∃ e, ∀ fs, (json.object "pushnotifications.publishResponse"
                        ["publishId"] after fs
                        (json.saveError saved
                           (errors.New
                              ("json: cannot unmarshal " +:+ json.kindOf x
                                 +:+ " into Go struct field "
                                 +:+ "pushnotifications.publishResponse" +:+ "."
                                 +:+ "publishId" +:+ " of type string")))).2
                     = Some e) as [e He].
  { destruct saved as [e|]; eexists; intros fs; apply object_saved. }
  destruct x as [|b|lit|s|items|ms];
    [done| | |by destruct (Hstr s)| |];
    (destruct (json.object _ _ after _ _) as [fs sv] eqn:Hobj;
     specialize (He fields); rewrite Hobj in He; simpl in He; subst sv; eauto).
Qed.

(** X17: an answer with status 200 whose body is a JSON object without a
    member selecting the field [publishId], or the JSON value [null], makes
    [publishToAPI] return the empty identifier and no error. *)
Theorem publishToAPI_publishId_missing pn url body w :
  urlParseError url = None →
  (∀ members,
     Forall (λ m, json.foldName m.1 ≠ json.foldName "publishId") members →
     network w (publishRequest pn url body) = ok200 members →
     publishToAPI pn url body w
     = Returned ("", None) (afterSending w (publishRequest pn url body)))
  ∧ (network w (publishRequest pn url body)
     = http.DoResponse 200 (http.ReadAll (json.Valid json.Null)) →
     publishToAPI pn url body w
     = Returned ("", None) (afterSending w (publishRequest pn url body))).
Proof.
  intros Hurl. split.
  - intros members Hnone Hans.
    rewrite (publishToAPI_answered pn url body w _ Hurl Hans).
    unfold json.Unmarshal.
    cbn [json.structName json.tags publishResponse_struct].
    rewrite <-(app_nil_r members), object_skip by done. done.
  - intros Hans. by rewrite (publishToAPI_answered pn url body w _ Hurl Hans).
Qed.

End status_ok.

(** ** The further properties at concrete inputs *)

Lemma New_credentials_witness :
  let w := sampleWorld ∅ published in
  ("inst" ≠ "" ∧ "key" ≠ "" ∧ "" = "")
  ∧ (∃ pn, New "inst" "key" w = Returned (Some pn, None) w)
  ∧ New "" "key" w
    = Returned
        (None, Some (errors.New "Instance Id cannot be an empty string")) w
  ∧ New "inst" "" w
    = Returned
        (None, Some (errors.New "Secret Key cannot be an empty string")) w.
Proof.
  intros w.
  assert ("inst" ≠ "") as Hi by discriminate.
  assert ("key" ≠ "") as Hk by discriminate.
  split; [by repeat split|]. split; [|split].
  - exact (proj2 (proj2 (proj2 (New_credentials "inst" "key" w))) Hi Hk).
  - exact (proj1 (New_credentials "" "key" w) eq_refl).
  - exact (proj1 (proj2 (New_credentials "inst" "" w)) Hi eq_refl).
Defined.

Lemma publish_request_shape_witness :
  let w := sampleWorld ∅ published in
  let req :=
    publishRequest (H := sampleExternals) samplePn (specUsersURL "inst")
      (json.Object [("users", json.Array [json.String "bob"])]) in
  let w' := afterSending (afterStoring w 1 {[ "users" := VStrings ["bob"] ]}) req in
  (publish (H := sampleExternals) Users samplePn ["bob"] (Some 1%positive) w
   = Returned ("pub123", None) w'
   ∧ wire w' = wire w ++ [req])
  ∧ http.Method req = "POST"
  ∧ targetURL (H := sampleExternals) Users samplePn w
    = Returned (http.URL req) w
  ∧ http.Header req
    = [("Authorization", "Bearer " +:+ SecretKey samplePn);
       ("Content-Type", "application/json");
       ("X-Pusher-Library",
        "pusher-push-notifications-go "
          +:+ sdkVersion (Externals := sampleExternals))].
Proof.
  intros w req w'.
  assert (publish (H := sampleExternals) Users samplePn ["bob"]
            (Some 1%positive) w = Returned ("pub123", None) w') as Hcall
    by (vm_compute; reflexivity).
  assert (wire w' = wire w ++ [req]) as Hwire by (vm_compute; reflexivity).
  split; [by split|].
  exact (publish_request_shape (H := sampleExternals) Users samplePn ["bob"]
           (Some 1%positive) w ("pub123", None) w' req Hcall Hwire).
Defined.

Lemma publish_stores_key_witness :
  let payload : gmap string govalue := {[ "title" := VString "hi" ]} in
  let w := sampleWorld payload networkDown in
  let r :=
    ("",
     Some
       (errors.Wrap (errors.New "dial tcp: i/o timeout")
          "Failed to publish notifications due to a network error")) in
  let w' :=
    afterSending
      (afterStoring w 1 (<["interests" := VStrings ["hello"]]> payload))
      (publishRequest (H := sampleExternals) samplePn (specInterestsURL "inst")
         (json.Object
            [("interests", json.Array [json.String "hello"]);
             ("title", json.String "hi")])) in
  (accepted Interests ["hello"] = true
   ∧ maps w !! 1%positive = Some payload
   ∧ publish (H := sampleExternals) Interests samplePn ["hello"]
       (Some 1%positive) w
     = Returned r w')
  ∧ maps w'
    = <[1%positive := <[injectedKey Interests := VStrings ["hello"]]> payload]>
        (maps w)
  ∧ (∀ l', l' ≠ 1%positive → maps w' !! l' = maps w !! l')
  ∧ clock w' = clock w
  ∧ network w' = network w
  ∧ (wire w' = wire w ∨ ∃ req, wire w' = wire w ++ [req]).
Proof.
  intros payload w r w'.
  assert (accepted Interests ["hello"] = true) as Hok
    by (vm_compute; reflexivity).
  assert (maps w !! 1%positive = Some payload) as Hl
    by (vm_compute; reflexivity).
  assert (publish (H := sampleExternals) Interests samplePn ["hello"]
            (Some 1%positive) w = Returned r w') as Hcall
    by (vm_compute; reflexivity).
  split; [by repeat split|].
  exact (publish_stores_key (H := sampleExternals) Interests samplePn ["hello"]
           1%positive payload w r w' Hok Hl Hcall).
Defined.

Lemma publish_nil_payload_witness :
  let w := sampleWorld ∅ published in
  (accepted Users ["bob"] = true ∧ accepted Users [] = false)
  ∧ publish (H := sampleExternals) Users samplePn ["bob"] None w
    = Panicked "assignment to entry in nil map" w
  ∧ ∃ err,
      publish (H := sampleExternals) Users samplePn [] None w
      = Returned ("", Some err) w
      ∧ errors.isWrapped err = false.
Proof.
  intros w.
  assert (accepted Users ["bob"] = true) as Hok by (vm_compute; reflexivity).
  assert (accepted Users [] = false) as Hbad by (vm_compute; reflexivity).
  split; [by split|]. split.
  - exact (proj1 (publish_nil_payload (H := sampleExternals) Users samplePn
                    ["bob"] w) Hok).
  - exact (proj2 (publish_nil_payload (H := sampleExternals) Users samplePn
                    [] w) Hbad).
Defined.

Lemma PublishToUsers_checks_witness :
  let w := sampleWorld ∅ published in
  (validUserIds ["bob"; "alice"] = true ∧ validUserIds ["bob"; ""] = false)
  ∧ validateUsers ["bob"; "alice"] w = Returned None w
  ∧ (∃ err,
       PublishToUsers (H := sampleExternals) samplePn ["bob"; ""]
         (Some 1%positive) w
       = Returned ("", Some err) w
       ∧ errors.isWrapped err = false)
  ∧ PublishToUsers (H := sampleExternals) samplePn [] (Some 1%positive) w
    = Returned ("", Some (errors.New "Must supply at least one user id")) w.
Proof.
  intros w.
  assert (validUserIds ["bob"; "alice"] = true) as Hok
    by (vm_compute; reflexivity).
  assert (validUserIds ["bob"; ""] = false) as Hbad
    by (vm_compute; reflexivity).
  split; [by split|]. split; [|split].
  - exact (proj1 (PublishToUsers_checks (H := sampleExternals) samplePn
                    ["bob"; "alice"] (Some 1%positive) w) Hok).
  - exact (proj1 (proj2 (PublishToUsers_checks (H := sampleExternals) samplePn
                           ["bob"; ""] (Some 1%positive) w)) Hbad).
  - exact (proj2 (proj2 (PublishToUsers_checks (H := sampleExternals) samplePn
                           [] (Some 1%positive) w)) eq_refl).
Defined.

Lemma PublishToInterests_entry_errors_witness :
  let w := sampleWorld ∅ published in
  (lenSlice (["hello"] ++ "" :: ["world"]) <= 10
   ∧ lenSlice (["hello"] ++ bangs :: []) <= 10
   ∧ forallb specInterest ["hello"] = true
   ∧ 164 < len bangs)
  ∧ PublishToInterests (H := sampleExternals) samplePn
      (["hello"] ++ "" :: ["world"]) (Some 1%positive) w
    = Returned ("", Some (errors.New "An empty interest name is not valid")) w
  ∧ PublishToInterests (H := sampleExternals) samplePn
      (["hello"] ++ bangs :: []) (Some 1%positive) w
    = Returned
        ("",
         Some
           (errors.New
              ("Interest length is " +:+ itoa (len bangs)
                 +:+ " which is over 164 characters")))
        w.
Proof.
  intros w.
  assert (lenSlice (["hello"] ++ "" :: ["world"]) <= 10) as Hc1
    by (vm_compute; discriminate).
  assert (lenSlice (["hello"] ++ bangs :: []) <= 10) as Hc2
    by (vm_compute; discriminate).
  assert (forallb specInterest ["hello"] = true) as Hbefore
    by (vm_compute; reflexivity).
  assert (164 < len bangs) as Hlong by (vm_compute; reflexivity).
  split; [by repeat split|]. split.
  - exact (proj1 (PublishToInterests_entry_errors (H := sampleExternals)
                    samplePn ["hello"] "" ["world"] (Some 1%positive) w
                    Hc1 Hbefore) eq_refl).
  - exact (proj2 (PublishToInterests_entry_errors (H := sampleExternals)
                    samplePn ["hello"] bangs [] (Some 1%positive) w
                    Hc2 Hbefore) Hlong).
Defined.

Lemma interests_pass_user_checks_witness :
  let w := sampleWorld ∅ published in
  validateInterests ["hello"; "donuts_2.0"] w = Returned None w
  ∧ validateUsers ["hello"; "donuts_2.0"] w = Returned None w.
Proof.
  intros w.
  assert (validateInterests ["hello"; "donuts_2.0"] w = Returned None w) as Hv
    by (vm_compute; reflexivity).
  split; [exact Hv|].
  exact (interests_pass_user_checks (H := sampleExternals)
           ["hello"; "donuts_2.0"] w Hv).
Defined.


Lemma AuthenticateUser_expiry_witness :
  let w := sampleWorld ∅ published in
  1 <= len "alice" <= 164
  ∧ ∃ token exp,
      jwt.Claims token !! "exp" = Some (VInt exp)
      ∧ clock w + 24 * time.Hour - time.Second < exp * time.Second
      ∧ exp * time.Second <= clock w + 24 * time.Hour
      ∧ clock w < exp * time.Second
      ∧ AuthenticateUser (H := sampleExternals) samplePn "alice" w
        = Returned
            match
              SignedString (Externals := sampleExternals) token
                (SecretKey samplePn)
            with
            | inl tokenString => (tokenString, None)
            | inr signingError =>
                ("",
                 Some
                   (errors.Wrap signingError
                      "Failed to sign the JWT token used for User Authentication"))
            end
            w.
Proof.
  intros w.
  assert (1 <= len "alice" <= 164) as Hlen by (split; vm_compute; discriminate).
  split; [exact Hlen|].
  exact (AuthenticateUser_expiry (H := sampleExternals) samplePn "alice" w Hlen).
Defined.

Lemma publishToAPI_api_error_witness :
  let w := sampleWorld ∅ (apiError 500 "ServerError" "boom") in
  let url := specInterestsURL "inst" in
  let body := json.Object [("interests", json.Array [json.String "hello"])] in
  let req := publishRequest (H := sampleExternals) samplePn url body in
  let data :=
    json.Valid
      (json.Object
         [("error", json.String "ServerError");
          ("description", json.String "boom")]) in
  let p := {| Error := "ServerError"; Description := "boom" |} in
  (urlParseError (Externals := sampleExternals) url = None
   ∧ network w req = http.DoResponse 500 (http.ReadAll data)
   ∧ 500 ≠ 200
   ∧ json.Unmarshal publishErrorResponse data = (p, None))
  ∧ ∃ err,
      publishToAPI (H := sampleExternals) samplePn url body w
      = Returned ("", Some err) (afterSending w req)
      ∧ errors.Error err
        = "Failed to publish notification: " +:+ Error p +:+ ": "
            +:+ Description p.
Proof.
  intros w url body req data p.
  assert (urlParseError (Externals := sampleExternals) url = None) as Hurl
    by (vm_compute; reflexivity).
  assert (network w req = http.DoResponse 500 (http.ReadAll data)) as Hans
    by (vm_compute; reflexivity).
  assert (500 ≠ 200) as Hstatus by discriminate.
  assert (json.Unmarshal publishErrorResponse data = (p, None)) as Hdec
    by (vm_compute; reflexivity).
  split; [by repeat split|].
  exact (proj1 (publishToAPI_api_error (H := sampleExternals) samplePn url body
                  w 500 data p Hurl Hans Hstatus Hdec)).
Defined.

Lemma publishToAPI_error_stage_witness :
  let w := sampleWorld ∅ networkDown in
  let url := specInterestsURL "inst" in
  let body := json.Object [("interests", json.Array [json.String "hello"])] in
  let req := publishRequest (H := sampleExternals) samplePn url body in
  let err := errors.Wrap (errors.New "dial tcp: i/o timeout") msgNetwork in
  publishToAPI (H := sampleExternals) samplePn url body w
  = Returned ("", Some err) (afterSending w req)
  ∧ "" = ""
  ∧ ∃ cause context,
      err = errors.Wrap cause context
      ∧ ((context = msgPrepare
          ∧ urlParseError (Externals := sampleExternals) url = Some cause
          ∧ afterSending w req = w)
         ∨ (context = msgNetwork ∧ network w req = http.DoError cause
            ∧ afterSending w req = afterSending w req)
         ∨ (context = msgRead
            ∧ (∃ status,
                 network w req = http.DoResponse status (http.ReadError cause))
            ∧ afterSending w req = afterSending w req)
         ∨ (context = msgInvalidJSON
            ∧ (∃ status data,
                 network w req = http.DoResponse status (http.ReadAll data)
                 ∧ if status =? 200
                   then (json.Unmarshal publishResponse data).2 = Some cause
                   else (json.Unmarshal publishErrorResponse data).2
                        = Some cause)
            ∧ afterSending w req = afterSending w req)
         ∨ (context = msgAPI
            ∧ (∃ status data p,
                 network w req = http.DoResponse status (http.ReadAll data)
                 ∧ status ≠ 200
                 ∧ json.Unmarshal publishErrorResponse data = (p, None)
                 ∧ cause = errors.New (Error p +:+ ": " +:+ Description p))
            ∧ afterSending w req = afterSending w req)).
Proof.
  intros w url body req err.
  assert (publishToAPI (H := sampleExternals) samplePn url body w
          = Returned ("", Some err) (afterSending w req)) as Hcall
    by (vm_compute; reflexivity).
  split; [exact Hcall|].
  exact (publishToAPI_error_stage (H := sampleExternals) samplePn url body w
           "" err (afterSending w req) Hcall).
Defined.

Lemma publish_marshal_failure_witness :
  let payload : gmap string govalue := {[ "done" := VUnsupported "chan bool" ]} in
  let w := sampleWorld payload published in
  (accepted Interests ["hello"] = true
   ∧ maps w !! 1%positive = Some payload
   ∧ "done" ≠ injectedKey Interests
   ∧ payload !! "done" = Some (VUnsupported "chan bool")
   ∧ json.encode (VUnsupported "chan bool")
     = inr (errors.New "json: unsupported type: chan bool"))
  ∧ ∃ e' k' x',
      payload !! k' = Some x' ∧ json.encode x' = inr e'
      ∧ publish (H := sampleExternals) Interests samplePn ["hello"]
          (Some 1%positive) w
        = Returned
            ("",
             Some
               (errors.Wrap e'
                  "Failed to marshal the publish request JSON body"))
            (afterStoring w 1
               (<[injectedKey Interests := VStrings ["hello"]]> payload)).
Proof.
  intros payload w.
  assert (accepted Interests ["hello"] = true) as Hok
    by (vm_compute; reflexivity).
  assert (maps w !! 1%positive = Some payload) as Hl
    by (vm_compute; reflexivity).
  assert ("done" ≠ injectedKey Interests) as Hk by discriminate.
  assert (payload !! "done" = Some (VUnsupported "chan bool")) as Hx
    by (vm_compute; reflexivity).
  assert (json.encode (VUnsupported "chan bool")
          = inr (errors.New "json: unsupported type: chan bool")) as He
    by reflexivity.
  split; [by repeat split|].
  exact (publish_marshal_failure (H := sampleExternals) Interests samplePn
           ["hello"] 1%positive payload w "done" _ _ Hok Hl Hk Hx He).
Defined.

Lemma PublishToInterests_succeeds_witness :
  let payload : gmap string govalue := {[ "title" := VString "hi" ]} in
  let w := sampleWorld payload published in
  let body :=
    json.Object
      [("interests", json.Array [json.String "hello"]);
       ("title", json.String "hi")] in
  let req :=
    publishRequest (H := sampleExternals) samplePn (specInterestsURL "inst")
      body in
  (New "inst" "key" w = Returned (Some samplePn, None) w
   ∧ percentFree "inst" = true
   ∧ validateInterests ["hello"] w = Returned None w
   ∧ maps w !! 1%positive = Some payload
   ∧ json.Marshal (VMap (<["interests" := VStrings ["hello"]]> payload))
     = inl body
   ∧ urlParseError (Externals := sampleExternals) (specInterestsURL "inst")
     = None
   ∧ network w req = ok200 [("publishId", json.String "pub123")]
   ∧ onlyField "publishId" [("publishId", json.String "pub123")] "pub123")
  ∧ PublishToInterests (H := sampleExternals) samplePn ["hello"]
      (Some 1%positive) w
    = Returned ("pub123", None)
        (afterSending
           (afterStoring w 1 (<["interests" := VStrings ["hello"]]> payload))
           req).
Proof.
  intros payload w body req.
  assert (New "inst" "key" w = Returned (Some samplePn, None) w) as Hnew
    by (vm_compute; reflexivity).
  assert (percentFree "inst" = true) as Hfree by (vm_compute; reflexivity).
  assert (validateInterests ["hello"] w = Returned None w) as Hv
    by (vm_compute; reflexivity).
  assert (maps w !! 1%positive = Some payload) as Hl
    by (vm_compute; reflexivity).
  assert (json.Marshal (VMap (<["interests" := VStrings ["hello"]]> payload))
          = inl body) as Hbody by (vm_compute; reflexivity).
  assert (urlParseError (Externals := sampleExternals)
            (specInterestsURL "inst") = None) as Hparse
    by (vm_compute; reflexivity).
  assert (network w req = ok200 [("publishId", json.String "pub123")]) as Hans
    by (vm_compute; reflexivity).
  assert (onlyField "publishId" [("publishId", json.String "pub123")] "pub123")
    as Honly.
  { exists [], "publishId", []. split; [reflexivity|]. split; [reflexivity|].
    constructor. }
  split; [by repeat split|].
  exact (PublishToInterests_succeeds (H := sampleExternals) "inst" "key" w
           samplePn ["hello"] 1%positive payload w body
           [("publishId", json.String "pub123")] "pub123"
           Hnew Hfree Hv Hl Hbody Hparse Hans Honly).
Defined.

Lemma publish_twice_witness :
  let w := sampleWorld ∅ published in
  let w1 :=
    afterSending (afterStoring w 1 {[ "users" := VStrings ["bob"] ]})
      (publishRequest (H := sampleExternals) samplePn (specUsersURL "inst")
         (json.Object [("users", json.Array [json.String "bob"])])) in
  let both : gmap string govalue :=
    <["interests" := VStrings ["hello"]]> {[ "users" := VStrings ["bob"] ]} in
  let w2 :=
    afterSending (afterStoring w1 1 both)
      (publishRequest (H := sampleExternals) samplePn (specInterestsURL "inst")
         (json.Object
            [("interests", json.Array [json.String "hello"]);
             ("users", json.Array [json.String "bob"])])) in
  (accepted Users ["bob"] = true
   ∧ accepted Interests ["hello"] = true
   ∧ maps w !! 1%positive = Some ∅
   ∧ publish (H := sampleExternals) Users samplePn ["bob"] (Some 1%positive) w
     = Returned ("pub123", None) w1
   ∧ publish (H := sampleExternals) Interests samplePn ["hello"]
       (Some 1%positive) w1
     = Returned ("pub123", None) w2
   ∧ Users ≠ Interests)
  ∧ ∀ m, maps w2 !! 1%positive = Some m →
         m !! injectedKey Users = Some (VStrings ["bob"])
         ∧ m !! injectedKey Interests = Some (VStrings ["hello"]).
Proof.
  intros w w1 both w2.
  assert (accepted Users ["bob"] = true) as Hok1 by (vm_compute; reflexivity).
  assert (accepted Interests ["hello"] = true) as Hok2
    by (vm_compute; reflexivity).
  assert (maps w !! 1%positive = Some ∅) as Hl by (vm_compute; reflexivity).
  assert (publish (H := sampleExternals) Users samplePn ["bob"]
            (Some 1%positive) w = Returned ("pub123", None) w1) as Hcall1
    by (vm_compute; reflexivity).
  assert (publish (H := sampleExternals) Interests samplePn ["hello"]
            (Some 1%positive) w1 = Returned ("pub123", None) w2) as Hcall2
    by (vm_compute; reflexivity).
  assert (Users ≠ Interests) as Hne by discriminate.
  split; [by repeat split|].
  exact (proj2 (proj2 (publish_twice (H := sampleExternals) Users Interests
                         samplePn ["bob"] ["hello"] 1%positive ∅ w
                         ("pub123", None) w1 ("pub123", None) w2
                         Hok1 Hok2 Hl Hcall1 Hcall2)) Hne).
Defined.

Lemma New_client_posts_to_witness :
  let w := sampleWorld ∅ published in
  let req :=
    publishRequest (H := sampleExternals) samplePn (specUsersURL "inst")
      (json.Object [("users", json.Array [json.String "bob"])]) in
  let w' := afterSending (afterStoring w 1 {[ "users" := VStrings ["bob"] ]}) req in
  (New "inst" "key" w = Returned (Some samplePn, None) w
   ∧ publish (H := sampleExternals) Users samplePn ["bob"] (Some 1%positive) w
     = Returned ("pub123", None) w'
   ∧ wire w' = wire w ++ [req])
  ∧ http.URL req = specUsersURL "inst".
Proof.
  intros w req w'.
  assert (New "inst" "key" w = Returned (Some samplePn, None) w) as Hnew
    by (vm_compute; reflexivity).
  assert (publish (H := sampleExternals) Users samplePn ["bob"]
            (Some 1%positive) w = Returned ("pub123", None) w') as Hcall
    by (vm_compute; reflexivity).
  assert (wire w' = wire w ++ [req]) as Hwire by (vm_compute; reflexivity).
  split; [by repeat split|].
  exact (proj1 (New_client_posts_to (H := sampleExternals) "inst" "key" w
                  samplePn Users ["bob"] (Some 1%positive) w ("pub123", None)
                  w' req Hnew Hcall Hwire) eq_refl).
Defined.

Lemma publishToAPI_publishId_not_a_string_witness :
  let w := sampleWorld ∅ (ok200 [("publishId", json.Number "5")]) in
  let url := specInterestsURL "inst" in
  let body := json.Object [("interests", json.Array [json.String "hello"])] in
  let req := publishRequest (H := sampleExternals) samplePn url body in
  (urlParseError (Externals := sampleExternals) url = None
   ∧ network w req = ok200 ([] ++ ("publishId", json.Number "5") :: [])
   ∧ json.foldName "publishId" = json.foldName "publishId")
  ∧ ∃ cause,
      publishToAPI (H := sampleExternals) samplePn url body w
      = Returned ("", Some (errors.Wrap cause msgInvalidJSON))
          (afterSending w req).
Proof.
  intros w url body req.
  assert (urlParseError (Externals := sampleExternals) url = None) as Hurl
    by (vm_compute; reflexivity).
  assert (network w req = ok200 ([] ++ ("publishId", json.Number "5") :: []))
    as Hans by (vm_compute; reflexivity).
  split; [by repeat split|].
  refine (publishToAPI_publishId_not_a_string (H := sampleExternals) samplePn
            url body w [] "publishId" (json.Number "5") [] Hurl Hans eq_refl
            _ _); [intros s|]; discriminate.
Defined.

Lemma publishToAPI_publishId_missing_witness :
  let w := sampleWorld ∅ (ok200 [("status", json.String "ok")]) in
  let url := specInterestsURL "inst" in
  let body := json.Object [("interests", json.Array [json.String "hello"])] in
  let req := publishRequest (H := sampleExternals) samplePn url body in
  (urlParseError (Externals := sampleExternals) url = None
   ∧ network w req = ok200 [("status", json.String "ok")])
  ∧ publishToAPI (H := sampleExternals) samplePn url body w
    = Returned ("", None) (afterSending w req).
Proof.
  intros w url body req.
  assert (urlParseError (Externals := sampleExternals) url = None) as Hurl
    by (vm_compute; reflexivity).
  assert (network w req = ok200 [("status", json.String "ok")]) as Hans
    by (vm_compute; reflexivity).
  assert (Forall (λ m : string * json.value,
                    json.foldName m.1 ≠ json.foldName "publishId")
            [("status", json.String "ok")]) as Hnone.
  { constructor; [vm_compute; discriminate|constructor]. }
  split; [by split|].
  exact (proj1 (publishToAPI_publishId_missing (H := sampleExternals) samplePn
                  url body w Hurl) [("status", json.String "ok")] Hnone Hans).
Defined.
